(** * cancel-previous-runs: the duplicate-run canceller of [src/main.ts]

    A shallow embedding of [src/main.ts] and the properties of its
    specification.  Pure code ([getRequiredEnv], the three skip rules, the
    ordered map) is embedded as functions; the asynchronous code
    ([cancelRun], [cancelDuplicates], [run]) is embedded in a small monad
    that threads the state of the outside world, appends to a trace of
    observable events and propagates JavaScript exceptions. *)

From Stdlib Require Import ZArith NArith String Ascii List DecimalString Sorted Lia.
From Stdlib Require Import DecimalPos DecimalN.
From stdpp Require Import gmap strings list sorting.

Open Scope string_scope.
Open Scope Z_scope.

(** ** JavaScript strings and numbers

    A string is its sequence of code units.  Every string the program
    compares or searches for is ASCII. *)

Module Js.

(** [`${n}`] and [n.toString()] for an integer [n]. *)
Definition showN (n : N) : string := NilEmpty.string_of_uint (N.to_uint n).
Definition showZ (z : Z) : string := NilZero.string_of_int (Z.to_int z).
Definition showNat (n : nat) : string := NilEmpty.string_of_uint (Nat.to_uint n).

(** [`${x}`] for a value that may be [undefined]. *)
Definition showOpt {A : Type} (show : A → string) (x : option A) : string :=
  match x with
  | Some a => show a
  | None => "undefined"
  end.

(** [s.startsWith(p)] *)
Definition startsWith (s p : string) : bool := String.prefix p s.

(** [a >= b] on two strings: the relational comparison of the language
    is the lexicographic one on code units, and [a >= b] is the negation
    of [a < b]. *)
Definition ge (a b : string) : bool := negb (String.ltb a b).

(** [xs.includes(x)] on an array of strings. *)
Definition includes (xs : list string) (x : string) : bool :=
  existsb (String.eqb x) xs.

(** [s.split(sep)] for a separator of one character: never empty. *)
Fixpoint split (sep : ascii) (s : string) : list string :=
  match s with
  | EmptyString => [EmptyString]
  | String c s' =>
      if Ascii.eqb c sep then EmptyString :: split sep s'
      else match split sep s' with
           | [] => [String c EmptyString]
           | w :: ws => String c w :: ws
           end
  end.

(** [xs.pop()]: the last element, [undefined] on the empty array. *)
Definition pop (xs : list string) : option string := last xs.

(** [x || ''] for [x] a string or [undefined]. *)
Definition orEmpty (x : option string) : string := default EmptyString x.

(** [s.replace(pat, rep)] with a string pattern: only the first
    occurrence is replaced, wherever it stands. *)
Fixpoint replace (pat rep s : string) : string :=
  if String.prefix pat s
  then rep ++ substring (String.length pat) (String.length s - String.length pat) s
  else match s with
       | EmptyString => EmptyString
       | String c s' => String c (replace pat rep s')
       end.

End Js.

(** ** Data model *)

(** The error objects the program throws and catches: [error.message] and
    [error.status] (absent on a plain [Error]). *)
Module JsError.
Record t : Type := mk { status : option Z; message : string }.

(** [new Error(message)] *)
Definition Error (message : string) : t := mk None message.
End JsError.

(** One element of a listing page, with the fields the program reads.
    Identifiers and run numbers are integers that a JavaScript number
    holds exactly and prints in plain decimal. *)
Module Run.
Record t : Type := mk {
  id : N;
  run_number : Z;
  status : string;
  event : string;
  workflow_url : string
}.
End Run.

(** [treemap.TreeMap<number, any>]: an ordered map, here the list of its
    entries in ascending key order. *)
Module TreeMap.

Definition t (V : Type) : Type := list (Z * V).

Definition empty {V : Type} : t V := [].

(** [m.set(k, v)]: insert, or replace the value under an existing key. *)
Fixpoint set {V : Type} (k : Z) (v : V) (m : t V) : t V :=
  match m with
  | [] => [(k, v)]
  | (k', v') :: m' =>
      if k <? k' then (k, v) :: m
      else if k =? k' then (k, v) :: m'
      else (k', v') :: set k v m'
  end.

Fixpoint get {V : Type} (k : Z) (m : t V) : option V :=
  match m with
  | [] => None
  | (k', v') :: m' => if k =? k' then Some v' else get k m'
  end.

(** [m.size] *)
Definition size {V : Type} (m : t V) : nat := length m.

(** [m.backward()]: the entries from the largest key to the smallest. *)
Definition backward {V : Type} (m : t V) : list (Z * V) := rev m.

Definition keys {V : Type} (m : t V) : list Z := map fst m.

(** The representation invariant: keys strictly ascending. *)
Definition wf {V : Type} (m : t V) : Prop := StronglySorted Z.lt (keys m).

End TreeMap.

(** ** [getRequiredEnv] (lines 173-180) *)

(** The outcome of a computation that may throw. *)
Inductive Completion (A : Type) : Type :=
| Normal (a : A)
| Throw (error : JsError.t).
Arguments Normal {A} a.
Arguments Throw {A} error.

Definition getRequiredEnv (env : gmap string string) (key : string) : Completion string :=
  match env !! key with
  | None => Throw (JsError.Error (key ++ " was not defined."))
  | Some value => Normal value
  end.

(** ** The skip rules of [cancelDuplicates] (lines 80-100) *)

Inductive Skip : Type := SkipLarger | SkipCompleted | SkipEvent.

(** The three [continue] guards, in the order of the source; [None] when
    the element reaches [cancelRun]. *)
Definition skipReason (selfRunId : string) (element : Run.t) : option Skip :=
  let runId := Js.showN (Run.id element) in
  let event := Run.event element in
  if Js.ge runId selfRunId then Some SkipLarger
  else if String.eqb "completed" (Run.status element) then Some SkipCompleted
  else if negb (Js.includes ["push"; "pull_request"] event) then Some SkipEvent
  else None.

Definition isDuplicate (selfRunId : string) (element : Run.t) : bool :=
  match skipReason selfRunId element with
  | None => true
  | Some _ => false
  end.

(** The elements in the order the loop of line 77 visits them. *)
Definition visited (sorted : TreeMap.t Run.t) : list Run.t :=
  map snd (TreeMap.backward sorted).

(** The elements the loop hands to [cancelRun], in that order. *)
Definition duplicates (sorted : TreeMap.t Run.t) (selfRunId : string) : list Run.t :=
  List.filter (isDuplicate selfRunId) (visited sorted).

(** ** The external collaborators' data *)

(** The request built by [createRunsQuery] (lines 6-24). *)
Record RunsQuery : Type := {
  owner : string;
  repo : option string;
  workflow_id : string;
  status : string;
  branch : string
}.

Definition createRunsQuery (owner : string) (repo : option string)
    (workflowId status branch : string) : RunsQuery :=
  {| owner := owner; repo := repo; workflow_id := workflowId;
     status := status; branch := branch |}.

(** [item.data] of one page of a listing: the array of runs itself, or the
    response object that holds the array under [workflow_runs]. *)
Inductive PageData : Type :=
| DataArray (runs : list Run.t)
| DataObject (total_count : Z) (workflow_runs : list Run.t).

(** What [octokit.paginate.iterator] yields: pages until the listing is
    exhausted, or until a request fails. *)
Inductive Listing : Type :=
| Done
| Page (data : PageData) (rest : Listing)
| Fail (error : JsError.t).

(** Everything the program does that can be observed from outside. *)
Inductive Event : Type :=
| Info (message : string)
| Warning (message : string)
| SetFailed (message : string)
| GetWorkflowRun (owner : string) (repo : option string) (run_id : option Z)
| ListWorkflowRuns (query : RunsQuery)
| CancelWorkflowRun (owner : string) (repo : option string) (run_id : N)
| UnhandledRejection (error : JsError.t).

(** ** The Collector (lines 51-72), without its requests *)

(** Line 65-66: [item.data.length === undefined ? item.data.workflow_runs : item.data].
    Only an array has a [length]. *)
Definition elements (data : PageData) : list Run.t :=
  match data with
  | DataArray runs => runs
  | DataObject _ workflow_runs => workflow_runs
  end.

(** Lines 68-70. *)
Definition setAll (elements : list Run.t) (sorted : TreeMap.t Run.t) : TreeMap.t Run.t :=
  fold_left (λ sorted element, TreeMap.set (Run.run_number element) element sorted)
            elements sorted.

(** Lines 61-71: the [for await] loop over one listing. *)
Fixpoint mergeListing (listing : Listing) (sorted : TreeMap.t Run.t)
    : Completion (TreeMap.t Run.t) :=
  match listing with
  | Done => Normal sorted
  | Fail error => Throw error
  | Page data rest => mergeListing rest (setAll (elements data) sorted)
  end.

(** Lines 52-72 over the listings of the tracked statuses, in order. *)
Fixpoint mergeListings (listings : list Listing) (sorted : TreeMap.t Run.t)
    : Completion (TreeMap.t Run.t) :=
  match listings with
  | [] => Normal sorted
  | listing :: rest =>
      match mergeListing listing sorted with
      | Normal sorted' => mergeListings rest sorted'
      | Throw error => Throw error
      end
  end.

(** A page holding [runs], in the plain shape or wrapped in a response
    object with the given [total_count]. *)
Definition pageOf (wrapped : option Z) (runs : list Run.t) : PageData :=
  match wrapped with
  | None => DataArray runs
  | Some total_count => DataObject total_count runs
  end.

(** Every value of the Collected Set is filed under its own run number. *)
Definition keyed (sorted : TreeMap.t Run.t) : Prop :=
  Forall (λ entry, Run.run_number (snd entry) = fst entry) sorted.

(** Newest first: each run number larger than all that follow. *)
Definition descending (runs : list Run.t) : Prop :=
  StronglySorted (λ a b, Run.run_number b < Run.run_number a) runs.

(** A listing that yields the given pages and ends. *)
Definition listingOf (pages : list PageData) : Listing :=
  fold_right Page Done pages.

(** A string without the character [/]. *)
Fixpoint noSlash (s : string) : bool :=
  match s with
  | EmptyString => true
  | String c s' => negb (Ascii.eqb c "/") && noSlash s'
  end.

(** The number that a sequence of decimal digits, most significant
    first, denotes, and the number of its digits. *)
Definition decimalValue (d : Decimal.uint) : N := DecimalPos.Unsigned.of_lu (Decimal.rev d).
Definition decimalSize (d : Decimal.uint) : N := DecimalPos.Unsigned.usize d.

(** A record that none of the three skip rules applies to. *)
Definition eligible (selfRunId : string) (element : Run.t) : Prop :=
  String.ltb (Js.showN (Run.id element)) selfRunId = true
  ∧ Run.status element ≠ "completed"
  ∧ (Run.event element = "push" ∨ Run.event element = "pull_request").

(** Whether [pat] occurs somewhere in [s]. *)
Fixpoint occurs (pat s : string) : bool :=
  String.prefix pat s
  || match s with
     | EmptyString => false
     | String _ s' => occurs pat s'
     end.

(** ** Sample invocations

    Concrete runs, environments and collaborators, used by the examples
    and by the instances of the theorems below. *)

Module Sample.

Definition url : string := "https://api.github.com/repos/octo/demo/actions/workflows/42".

(** The records of the scenarios A to D of the specification. *)
Definition run10 : Run.t := Run.mk 100 10 "queued" "push" url.
Definition run11 : Run.t := Run.mk 101 11 "in_progress" "push" url.
Definition run9 : Run.t := Run.mk 90 9 "completed" "push" url.
Definition run8 : Run.t := Run.mk 80 8 "queued" "schedule" url.
Definition run20 : Run.t := Run.mk 999 20 "queued" "push" url.

(** A run started after run 9999999999. *)
Definition runNewer : Run.t := Run.mk 10000000000 21 "queued" "push" url.

(** A later record under run number 10. *)
Definition run10' : Run.t := Run.mk 100 10 "in_progress" "pull_request" url.

(** The decimal digits a string starts with, [NaN] when there are none. *)
Fixpoint digits (s : string) (acc : option Z) : option Z :=
  match s with
  | EmptyString => acc
  | String c s' =>
      let n := Z.of_nat (nat_of_ascii c) in
      if (48 <=? n) && (n <=? 57)
      then digits s' (Some (10 * default 0 acc + (n - 48)))
      else acc
  end.

Definition parseInt (s : string) : option Z := digits s None.

(** The client of the service: what it authenticates with and where the
    service is. *)
Record Client : Type := { auth : string; baseUrl : string }.

(** The toolkit's [core.getInput], on ASCII: the value of the variable
    [INPUT_<NAME>], the name in upper case and with [_] for each space,
    the empty string when it is undefined, without the white space
    around it. *)
Definition isSpace (c : ascii) : bool :=
  existsb (Ascii.eqb c) [" "; "009"; "010"; "011"; "012"; "013"]%char.

Definition inputChar (c : ascii) : ascii :=
  let n := nat_of_ascii c in
  if Ascii.eqb c " " then "_"%char
  else if ((97 <=? n) && (n <=? 122))%nat then ascii_of_nat (n - 32)
  else c.

Fixpoint inputName (name : string) : string :=
  match name with
  | EmptyString => EmptyString
  | String c name' => String (inputChar c) (inputName name')
  end.

Fixpoint trimStart (s : string) : string :=
  match s with
  | EmptyString => EmptyString
  | String c s' => if isSpace c then trimStart s' else s
  end.

Fixpoint trimEnd (s : string) : string :=
  match s with
  | EmptyString => EmptyString
  | String c s' =>
      match trimEnd s' with
      | EmptyString => if isSpace c then EmptyString else String c EmptyString
      | rest => String c rest
      end
  end.

Definition getInput (env : gmap string string) (name : string) : string :=
  trimEnd (trimStart (default EmptyString (env !! ("INPUT_" ++ inputName name)))).

(** A client constructor that asks for a token, and takes the address of
    the service from [GITHUB_API_URL] when that is set. *)
Definition GitHub (env : gmap string string) (token : string) : Completion Client :=
  if (String.length token =? 0)%nat
  then Throw (JsError.Error "Parameter token or opts.auth is required")
  else Normal {| auth := "token " ++ token;
                 baseUrl := match env !! "GITHUB_API_URL" with
                            | Some (String c url) => String c url
                            | _ => "https://api.github.com"
                            end |}.

(** A lookup that answers with the workflow of [url]. *)
Definition getWorkflowRun (octokit : Client) (owner : string) (repo : option string)
    (run_id : option Z) : Completion string :=
  Normal url.

(** A lookup whose [workflow_url] ends without a workflow identifier. *)
Definition getWorkflowRunNoWorkflow (octokit : Client) (owner : string) (repo : option string)
    (run_id : option Z) : Completion string :=
  Normal "https://api.github.com/repos/octo/demo/actions/workflows/".

(** A lookup of a run that does not exist. *)
Definition getWorkflowRunNotFound (octokit : Client) (owner : string) (repo : option string)
    (run_id : option Z) : Completion string :=
  Throw (JsError.mk (Some 404) "Not Found").

(** A service whose listing of the in-progress runs fails. *)
Definition listWorkflowRunsBrokenLater (octokit : Client) (query : RunsQuery) : Listing :=
  if String.eqb (status query) "queued"
  then Page (DataArray [run10]) Done
  else Fail (JsError.mk (Some 502) "Bad Gateway").

(** Scenario A, the first page in the plain shape and the second in the
    wrapped one. *)
Definition listWorkflowRuns (octokit : Client) (query : RunsQuery) : Listing :=
  if String.eqb (status query) "queued"
  then Page (DataArray [run10]) Done
  else Page (DataObject 1 [run11]) Done.

(** A listing that breaks on its second page. *)
Definition listWorkflowRunsBroken (octokit : Client) (query : RunsQuery) : Listing :=
  Page (DataArray [run10]) (Fail (JsError.mk (Some 502) "Bad Gateway")).

(** The service remembers the runs it cancelled, and refuses to cancel
    run 101. *)
Definition cancelWorkflowRun (octokit : Client) (owner : string) (repo : option string)
    (run_id : N) (cancelled : list N) : Completion Z * list N :=
  if (run_id =? 101)%N
  then (Throw (JsError.mk (Some 409) "Cannot cancel a workflow run that is completed"),
        cancelled)
  else (Normal 202, run_id :: cancelled).

(** A service that cancels whatever it is asked to. *)
Definition cancelAnything (octokit : Client) (owner : string) (repo : option string)
    (run_id : N) (requests : nat) : Completion Z * nat :=
  (Normal 202, S requests).

(** The client that [GitHub] builds from the token [token]. *)
Definition octokit : Client :=
  {| auth := "token token"; baseUrl := "https://api.github.com" |}.

(** An environment with the input [github-token] set to [token]. *)
Definition env (selfRunId eventName ref headRef : string) : gmap string string :=
  <["INPUT_GITHUB-TOKEN" := "token"]>
    (<["GITHUB_RUN_ID" := selfRunId]>
       (<["GITHUB_REPOSITORY" := "octo/demo"]>
          (<["GITHUB_EVENT_NAME" := eventName]>
             (<["GITHUB_REF" := ref]>
                (<["GITHUB_HEAD_REF" := headRef]> ∅))))).

(** With the empty string for the run identifier, the repository and
    the event name. *)
Definition emptyEnv (eventName ref : string) : gmap string string :=
  <["INPUT_GITHUB-TOKEN" := "token"]>
    (<["GITHUB_RUN_ID" := ""]>
       (<["GITHUB_REPOSITORY" := ""]>
          (<["GITHUB_EVENT_NAME" := eventName]>
             (<["GITHUB_REF" := ref]> ∅)))).

End Sample.

(** ** The effectful program *)

Section Program.

(** The state of the service the cancel requests act on. *)
Context {World : Type}.

(** The toolkit's [core.getInput]: it reads the input of the given name
    from [process.env]. *)
Variable getInput : gmap string string → string → string.

(** [Number.parseInt]; [None] is [NaN]. *)
Variable parseInt : string → option Z.

(** The client library.  [new github.GitHub(token)] (line 33) builds the
    client [octokit] from the token and from what the library reads in
    [process.env], or throws.  The client has the three endpoints the
    program calls: the lookup answers with [reply.data.workflow_url],
    the cancel request with [reply.status]. *)
Context {Client : Type}.
Variable GitHub : gmap string string → string → Completion Client.
Variable getWorkflowRun : Client → string → option string → option Z → Completion string.
Variable listWorkflowRuns : Client → RunsQuery → Listing.
Variable cancelWorkflowRun :
  Client → string → option string → N → World → Completion Z * World.

Record Outcome (A : Type) : Type := {
  trace : list Event;
  completion : Completion A;
  world : World
}.
Arguments trace {A} _.
Arguments completion {A} _.
Arguments world {A} _.

Definition M (A : Type) : Type := World → Outcome A.

Definition ret {A : Type} (a : A) : M A :=
  λ w, {| trace := []; completion := Normal a; world := w |}.

Definition bind {A B : Type} (m : M A) (k : A → M B) : M B :=
  λ w,
    let r := m w in
    match completion r with
    | Normal a =>
        let r' := k a (world r) in
        {| trace := trace r ++ trace r'; completion := completion r'; world := world r' |}
    | Throw error =>
        {| trace := trace r; completion := Throw error; world := world r |}
    end.

Definition throw {A : Type} (error : JsError.t) : M A :=
  λ w, {| trace := []; completion := Throw error; world := w |}.

Definition emit (e : Event) : M unit :=
  λ w, {| trace := [e]; completion := Normal tt; world := w |}.

Definition lift {A : Type} (c : Completion A) : M A :=
  λ w, {| trace := []; completion := c; world := w |}.

(** [try { body } catch (error) { handler }] *)
Definition tryCatch {A : Type} (body : M A) (handler : JsError.t → M A) : M A :=
  λ w,
    let r := body w in
    match completion r with
    | Normal a => r
    | Throw error =>
        let r' := handler error (world r) in
        {| trace := trace r ++ trace r'; completion := completion r'; world := world r' |}
    end.

(** A call of an async function whose promise is dropped: the callee
    runs, and a rejection reaches no handler of the caller. *)
Definition floating (m : M unit) : M unit :=
  λ w,
    let r := m w in
    match completion r with
    | Normal _ => r
    | Throw error =>
        {| trace := trace r ++ [UnhandledRejection error];
           completion := Normal tt; world := world r |}
    end.

Notation "x <- m ;; k" := (bind m (λ x, k))
  (at level 100, m at next level, right associativity).
Notation "m ;;; k" := (bind m (λ _, k))
  (at level 100, right associativity).

Definition info (message : string) : M unit := emit (Info message).
Definition warning (message : string) : M unit := emit (Warning message).
Definition setFailed (message : string) : M unit := emit (SetFailed message).

(** [for (const x of xs) body] *)
Fixpoint forOf {A : Type} (xs : list A) (body : A → M unit) : M unit :=
  match xs with
  | [] => ret tt
  | x :: xs' => body x ;;; forOf xs' body
  end.

(** [for (const x of xs) body], the body updating [sorted]. *)
Fixpoint forOfSorted {A S : Type} (xs : list A) (body : A → S → M S) (s : S) : M S :=
  match xs with
  | [] => ret s
  | x :: xs' => s' <- body x s ;; forOfSorted xs' body s'
  end.

(** *** [cancelRun] (lines 108-129) *)
Definition cancelRun (octokit : Client) (owner : string) (repo : option string) (id : N)
    : M unit :=
  tryCatch
    (emit (CancelWorkflowRun owner repo id) ;;;
     reply <- (λ w, let '(c, w') := cancelWorkflowRun octokit owner repo id w in
                    {| trace := []; completion := c; world := w' |}) ;;
     info ("Previous run (id " ++ Js.showN id ++ ") cancelled, status = " ++ Js.showZ reply))
    (λ error,
       warning ("Could not cancel run (id " ++ Js.showN id ++ "): ["
                ++ Js.showOpt Js.showZ (JsError.status error) ++ "] "
                ++ JsError.message error)).

(** *** [cancelDuplicates] (lines 26-106) *)

(** Lines 78-104: the body of the loop over [sorted.backward()]. *)
Definition processEntry (octokit : Client) (selfRunId owner : string) (repo : option string)
    (entry : Z * Run.t) : M unit :=
  let element := snd entry in
  let runId := Js.showN (Run.id element) in
  let event := Run.event element in
  info ("Processing run ID: " ++ runId ++ " [" ++ event ++ " : "
        ++ Run.workflow_url element ++ " : " ++ Run.status element ++ " : "
        ++ Js.showZ (Run.run_number element) ++ "]") ;;;
  match skipReason selfRunId element with
  | Some SkipLarger => info ("Skipping larger run ID: " ++ runId)
  | Some SkipCompleted => info ("Skipping completed run ID: " ++ runId)
  | Some SkipEvent => info ("Skipping completed or non-event matching run ID: " ++ runId)
  | None =>
      info ("Cancelling run ID: " ++ runId) ;;;
      cancelRun octokit owner repo (Run.id element)
  end.

(** Lines 77-105. *)
Definition cancelLoop (octokit : Client) (selfRunId owner : string) (repo : option string)
    (sorted : TreeMap.t Run.t) : M unit :=
  forOf (TreeMap.backward sorted) (processEntry octokit selfRunId owner repo).

(** Lines 51-72. *)
Definition collect (octokit : Client) (owner : string) (repo : option string)
    (workflowId branch : string) : M (TreeMap.t Run.t) :=
  forOfSorted ["queued"; "in_progress"]
    (λ status sorted,
       let listRuns := createRunsQuery owner repo workflowId status branch in
       emit (ListWorkflowRuns listRuns) ;;;
       lift (mergeListing (listWorkflowRuns octokit listRuns) sorted))
    TreeMap.empty.

(** [process.env], which the constructor of the client reads, is the
    argument [env]. *)
Definition cancelDuplicates (env : gmap string string) (token selfRunId owner : string)
    (repo : option string) (branch : string) : M unit :=
  octokit <- lift (GitHub env token) ;;
  let run_id := parseInt selfRunId in
  emit (GetWorkflowRun owner repo run_id) ;;;
  workflow_url <- lift (getWorkflowRun octokit owner repo run_id) ;;
  let workflowId := Js.orEmpty (Js.pop (Js.split "/" workflow_url)) in
  if (String.length workflowId =? 0)%nat
  then throw (JsError.Error "Could not resolve workflow")
  else
    info ("Workflow ID is: " ++ workflowId) ;;;
    sorted <- collect octokit owner repo workflowId branch ;;
    info ("Found queued/in_progress workflows: " ++ Js.showNat (TreeMap.size sorted)) ;;;
    cancelLoop octokit selfRunId owner repo sorted.

(** *** [run] (lines 131-171)

    [process.env] is the argument [env].  The destructuring of line 141
    takes the first two parts of the slug: [split] always yields a first
    part, and [repo] is [undefined] when the slug has no slash.  Line 167
    calls [cancelDuplicates] without [await]. *)

(** Line 133: the token that [run] works with. *)
Definition githubToken (env : gmap string string) : string :=
  getInput env "github-token".

Definition run (env : gmap string string) : M unit :=
  tryCatch
    (let token := githubToken env in
     info token ;;;
     selfRunId <- lift (getRequiredEnv env "GITHUB_RUN_ID") ;;
     repository <- lift (getRequiredEnv env "GITHUB_REPOSITORY") ;;
     eventName <- lift (getRequiredEnv env "GITHUB_EVENT_NAME") ;;
     let parts := Js.split "/" repository in
     let owner := Js.orEmpty (parts !! 0%nat) in
     let repo := parts !! 1%nat in
     let branchPrefix := "refs/heads/" in
     let tagPrefix := "refs/tags/" in
     if negb (Js.includes ["push"; "pull_request"] eventName)
     then info ("Skipping unsupported event: " ++ eventName)
     else
       let pullRequest := String.eqb "pull_request" eventName in
       branch <- lift (getRequiredEnv env (if pullRequest then "GITHUB_HEAD_REF" else "GITHUB_REF")) ;;
       if negb pullRequest && negb (Js.startsWith branch branchPrefix)
       then
         if Js.startsWith branch tagPrefix
         then info ("Skipping tag build: " ++ branch)
         else throw (JsError.Error (branch ++ " was not an expected branch ref (refs/heads/)."))
       else
         let branch := Js.replace branchPrefix "" branch in
         info ("Branch is " ++ branch ++ ", repo is " ++ Js.showOpt (λ s, s) repo
               ++ ", and owner is " ++ owner ++ ", and id is " ++ selfRunId) ;;;
         floating (cancelDuplicates env token selfRunId owner repo branch))
    (λ error, setFailed (JsError.message error)).

(** ** Properties of the driver (inside the section: for every
    collaborator) *)

(** The run identifiers of the cancel requests of a trace, in order. *)
Definition cancelCalls (tr : list Event) : list N :=
  omap (λ e, match e with CancelWorkflowRun _ _ run_id => Some run_id | _ => None end) tr.

Definition isSetFailed (e : Event) : bool :=
  match e with SetFailed _ => true | _ => false end.

(** The requests of a trace: lookup, listing and cancel. *)
Definition isRequest (e : Event) : bool :=
  match e with
  | GetWorkflowRun _ _ _ | ListWorkflowRuns _ | CancelWorkflowRun _ _ _ => true
  | _ => false
  end.

(** The outcome of an invocation that [run] marks as failed. *)
Definition failedEarly (token message : string) (w : World) : Outcome unit :=
  {| trace := [Info token; SetFailed message]; completion := Normal tt; world := w |}.

(** The variable [run] takes the ref from: line 152. *)
Definition refVariable (eventName : string) : string :=
  if String.eqb "pull_request" eventName then "GITHUB_HEAD_REF" else "GITHUB_REF".

Lemma cancelCalls_app (tr1 tr2 : list Event) :
  cancelCalls (tr1 ++ tr2)%list = (cancelCalls tr1 ++ cancelCalls tr2)%list.
Proof. apply omap_app. Qed.

Lemma cancelCalls_info (message : string) (tr : list Event) :
  cancelCalls (Info message :: tr) = cancelCalls tr.
Proof. reflexivity. Qed.

Lemma bind_unfold {A B : Type} (m : M A) (k : A → M B) (w : World) :
  bind m k w =
    match completion (m w) with
    | Normal a =>
        {| trace := trace (m w) ++ trace (k a (world (m w)));
           completion := completion (k a (world (m w)));
           world := world (k a (world (m w))) |}
    | Throw error =>
        {| trace := trace (m w); completion := Throw error; world := world (m w) |}
    end.
Proof. reflexivity. Qed.

(** Rewriting rules for straight-line code. *)
Lemma outcome_eta {A : Type} (r : Outcome A) :
  {| trace := trace r; completion := completion r; world := world r |} = r.
Proof. destruct r; reflexivity. Qed.

Lemma bind_emit {B : Type} (e : Event) (k : unit → M B) (w : World) :
  bind (emit e) k w =
    {| trace := e :: trace (k tt w); completion := completion (k tt w);
       world := world (k tt w) |}.
Proof. reflexivity. Qed.

Lemma bind_lift_normal {A B : Type} (c : Completion A) (a : A) (k : A → M B) (w : World) :
  c = Normal a → bind (lift c) k w = k a w.
Proof. intros ->. unfold bind, lift. cbn. apply outcome_eta. Qed.

Lemma bind_lift_throw {A B : Type} (error : JsError.t) (k : A → M B) (w : World) :
  bind (lift (Throw error)) k w = {| trace := []; completion := Throw error; world := w |}.
Proof. reflexivity. Qed.

(** [cancelRun] swallows every failure of the cancel request. *)
Lemma cancelRun_spec (octokit : Client) (owner : string) (repo : option string) (id : N) (w : World) :
  completion (cancelRun octokit owner repo id w) = Normal tt
  ∧ cancelCalls (trace (cancelRun octokit owner repo id w)) = [id]
  ∧ existsb isSetFailed (trace (cancelRun octokit owner repo id w)) = false.
Proof.
  unfold cancelRun, tryCatch, bind, emit, info, warning; simpl.
  destruct (cancelWorkflowRun octokit owner repo id w) as [[reply | error] w']; simpl; done.
Qed.

Lemma processEntry_spec (octokit : Client) (selfRunId owner : string) (repo : option string)
    (entry : Z * Run.t) (w : World) :
  let r := processEntry octokit selfRunId owner repo entry w in
  completion r = Normal tt
  ∧ cancelCalls (trace r) =
      (if isDuplicate selfRunId (snd entry) then [Run.id (snd entry)] else [])
  ∧ existsb isSetFailed (trace r) = false.
Proof.
  unfold processEntry, isDuplicate. rewrite bind_unfold. cbn [info emit completion trace world].
  destruct (skipReason selfRunId (snd entry)) as [[ | | ] | ]; try (cbn; done).
  rewrite bind_unfold. cbn [info emit completion trace world].
  destruct (cancelRun_spec octokit owner repo (Run.id (snd entry)) w) as (Hc & Hcalls & Hsf).
  rewrite Hc. cbn [trace completion]. split; [done | split].
  - apply Hcalls.
  - apply Hsf.
Qed.

Lemma forOf_processEntry_spec (octokit : Client) (selfRunId owner : string) (repo : option string)
    (entries : list (Z * Run.t)) (w : World) :
  let r := forOf entries (processEntry octokit selfRunId owner repo) w in
  completion r = Normal tt
  ∧ cancelCalls (trace r) =
      map Run.id (List.filter (isDuplicate selfRunId) (map snd entries))
  ∧ existsb isSetFailed (trace r) = false.
Proof.
  revert w. induction entries as [ | entry entries IH]; intros w; [cbn; done | ].
  cbn [forOf]. cbv zeta. rewrite bind_unfold.
  destruct (processEntry_spec octokit selfRunId owner repo entry w) as (Hc & Hcalls & Hsf).
  rewrite Hc. cbn [trace completion].
  destruct (IH (world (processEntry octokit selfRunId owner repo entry w)))
    as (Hc' & Hcalls' & Hsf').
  split; [exact Hc' | split].
  - rewrite cancelCalls_app, Hcalls, Hcalls'. cbn [map List.filter].
    destruct (isDuplicate selfRunId (snd entry)); reflexivity.
  - rewrite existsb_app, Hsf, Hsf'. reflexivity.
Qed.

(** The loop of lines 77-105 never throws, and its cancel requests are
    exactly the [duplicates], in their order. *)
Lemma cancelLoop_spec (octokit : Client) (selfRunId owner : string) (repo : option string)
    (sorted : TreeMap.t Run.t) (w : World) :
  let r := cancelLoop octokit selfRunId owner repo sorted w in
  completion r = Normal tt
  ∧ cancelCalls (trace r) = map Run.id (duplicates sorted selfRunId)
  ∧ existsb isSetFailed (trace r) = false.
Proof. apply forOf_processEntry_spec. Qed.

(** The Collector issues one listing request per tracked status, leaves
    the world alone and merges the listings in order. *)
Lemma collect_spec (octokit : Client) (owner : string) (repo : option string)
    (workflowId branch : string) (w : World) :
  let r := collect octokit owner repo workflowId branch w in
  let query := createRunsQuery owner repo workflowId in
  completion r =
    mergeListings [listWorkflowRuns octokit (query "queued" branch);
                   listWorkflowRuns octokit (query "in_progress" branch)] TreeMap.empty
  ∧ cancelCalls (trace r) = []
  ∧ existsb isSetFailed (trace r) = false.
Proof.
  unfold collect. cbn [forOfSorted mergeListings]. cbv zeta.
  unfold bind, lift, emit, ret. cbn [trace completion world].
  destruct (mergeListing _ TreeMap.empty) as [sorted1 | error1]; [ | cbn; done].
  cbn [trace completion world].
  destruct (mergeListing _ sorted1) as [sorted2 | error2]; cbn; done.
Qed.

(** [cancelDuplicates] never calls [core.setFailed], and when it throws
    it has sent no cancel request. *)
Lemma cancelDuplicates_spec (env : gmap string string) (token selfRunId owner : string)
    (repo : option string) (branch : string) (w : World) :
  let r := cancelDuplicates env token selfRunId owner repo branch w in
  existsb isSetFailed (trace r) = false
  ∧ (∀ error, completion r = Throw error → cancelCalls (trace r) = []).
Proof.
  unfold cancelDuplicates. cbv zeta.
  destruct (GitHub env token) as [octokit | error0]; [ | rewrite bind_lift_throw; cbn; done].
  rewrite (bind_lift_normal _ octokit _ _ eq_refl). cbv beta.
  rewrite bind_unfold. cbn [emit trace completion world].
  rewrite bind_unfold. unfold lift. cbn [trace completion world].
  destruct (getWorkflowRun octokit owner repo (parseInt selfRunId)) as [workflow_url | error0];
    [ | cbn; done].
  cbv beta zeta.
  set (workflowId := Js.orEmpty (Js.pop (Js.split "/" workflow_url))).
  destruct (String.length workflowId =? 0)%nat; [cbn; done | ].
  rewrite bind_unfold. cbn [info emit trace completion world].
  rewrite bind_unfold.
  destruct (collect_spec octokit owner repo workflowId branch w) as (_ & Hcalls & Hsf).
  destruct (completion (collect octokit owner repo workflowId branch w)) as [sorted | error1].
  - rewrite bind_unfold. cbn [info emit trace completion world].
    set (w1 := world (collect octokit owner repo workflowId branch w)).
    destruct (cancelLoop_spec octokit selfRunId owner repo sorted w1) as (Hc & _ & Hsf').
    cbn [trace completion]. split.
    + cbn [app existsb isSetFailed orb]. rewrite existsb_app, Hsf.
      cbn [existsb isSetFailed orb]. exact Hsf'.
    + intros error Herr. rewrite Hc in Herr. discriminate.
  - cbn [trace completion]. split.
    + cbn [app existsb isSetFailed orb]. rewrite Hsf. reflexivity.
    + intros _ _. cbn [app cancelCalls omap]. exact Hcalls.
Qed.

Lemma tryCatch_setFailed_completes (body : M unit) (f : JsError.t → string) (w : World) :
  completion (tryCatch body (λ error, setFailed (f error)) w) = Normal tt.
Proof.
  unfold tryCatch. cbv zeta.
  destruct (completion (body w)) as [[] | error] eqn:Hbody; [exact Hbody | reflexivity].
Qed.

(** [run] itself never throws: its handler catches what its body throws. *)
Lemma run_completes (env : gmap string string) (w : World) :
  completion (run env w) = Normal tt.
Proof. apply tryCatch_setFailed_completes. Qed.

(** A ref with the tag prefix does not have the branch prefix. *)
Lemma tag_ref_is_no_branch_ref (ref : string) :
  Js.startsWith ref "refs/tags/" = true → Js.startsWith ref "refs/heads/" = false.
Proof.
  unfold Js.startsWith.
  do 6 (destruct ref as [ | ? ref];
        [cbn [String.prefix]; repeat destruct (ascii_dec _ _); intros; (discriminate || reflexivity) | ]).
  cbn [String.prefix].
  repeat (destruct (ascii_dec _ _) as [<- | ]; [ | intros; (discriminate || reflexivity)]).
  reflexivity.
Qed.

Lemma getRequiredEnv_defined (env : gmap string string) (key value : string) :
  env !! key = Some value → getRequiredEnv env key = Normal value.
Proof. unfold getRequiredEnv. intros ->. reflexivity. Qed.

Lemma tryCatch_normal {A : Type} (body : M A) (handler : JsError.t → M A) (a : A) (w : World) :
  completion (body w) = Normal a → tryCatch body handler w = body w.
Proof. unfold tryCatch. cbv zeta. intros ->. reflexivity. Qed.

Ltac env_defined H :=
  rewrite (bind_lift_normal _ _ _ _ (getRequiredEnv_defined _ _ _ H)); cbv beta.

(** [run] up to the [if] of line 145, when the three required variables
    are defined. *)
Lemma run_unsupported_event (selfRunId repository eventName : string)
    (env : gmap string string) (w : World) :
  env !! "GITHUB_RUN_ID" = Some selfRunId →
  env !! "GITHUB_REPOSITORY" = Some repository →
  env !! "GITHUB_EVENT_NAME" = Some eventName →
  Js.includes ["push"; "pull_request"] eventName = false →
  run env w =
    {| trace := [Info (githubToken env); Info ("Skipping unsupported event: " ++ eventName)];
       completion := Normal tt; world := w |}.
Proof.
  intros Hid Hrepo Hevent Hskip. unfold run.
  unfold tryCatch, info. cbv zeta. rewrite bind_emit.
  env_defined Hid. env_defined Hrepo. env_defined Hevent.
  rewrite Hskip. reflexivity.
Qed.

(** [run] on a push of a tag: the [return] of line 156. *)
Lemma run_tag_build (selfRunId repository ref : string)
    (env : gmap string string) (w : World) :
  env !! "GITHUB_RUN_ID" = Some selfRunId →
  env !! "GITHUB_REPOSITORY" = Some repository →
  env !! "GITHUB_EVENT_NAME" = Some "push" →
  env !! "GITHUB_REF" = Some ref →
  Js.startsWith ref "refs/tags/" = true →
  run env w =
    {| trace := [Info (githubToken env); Info ("Skipping tag build: " ++ ref)];
       completion := Normal tt; world := w |}.
Proof.
  intros Hid Hrepo Hevent Href Htag. unfold run.
  unfold tryCatch, info. cbv zeta. rewrite bind_emit.
  env_defined Hid. env_defined Hrepo. env_defined Hevent.
  cbn [Js.includes existsb String.eqb Ascii.eqb Bool.eqb orb negb].
  env_defined Href.
  rewrite (tag_ref_is_no_branch_ref ref Htag), Htag. reflexivity.
Qed.

Lemma floating_completes (m : M unit) (w : World) :
  completion (floating m w) = Normal tt.
Proof.
  unfold floating. cbv zeta.
  destruct (completion (m w)) as [[] | error] eqn:Hm; [exact Hm | reflexivity].
Qed.

(** [run] when it gets as far as line 167. *)
Lemma run_calls_cancelDuplicates (selfRunId repository eventName ref : string)
    (env : gmap string string) (w : World) :
  env !! "GITHUB_RUN_ID" = Some selfRunId →
  env !! "GITHUB_REPOSITORY" = Some repository →
  env !! "GITHUB_EVENT_NAME" = Some eventName →
  Js.includes ["push"; "pull_request"] eventName = true →
  env !! (if String.eqb "pull_request" eventName then "GITHUB_HEAD_REF" else "GITHUB_REF")
    = Some ref →
  negb (String.eqb "pull_request" eventName) && negb (Js.startsWith ref "refs/heads/") = false →
  let owner := Js.orEmpty (Js.split "/" repository !! 0%nat) in
  let repo := Js.split "/" repository !! 1%nat in
  let branch := Js.replace "refs/heads/" "" ref in
  let r := floating (cancelDuplicates env (githubToken env) selfRunId owner repo branch) w in
  run env w =
    {| trace := Info (githubToken env)
                :: Info ("Branch is " ++ branch ++ ", repo is " ++ Js.showOpt (λ s, s) repo
                         ++ ", and owner is " ++ owner ++ ", and id is " ++ selfRunId)
                :: trace r;
       completion := Normal tt; world := world r |}.
Proof.
  intros Hid Hrepo Hevent Haccepted Href Hguard. cbv zeta. unfold run.
  unfold tryCatch, info. cbv zeta. rewrite bind_emit.
  env_defined Hid. env_defined Hrepo. env_defined Hevent.
  rewrite Haccepted. cbn [negb].
  env_defined Href. rewrite Hguard. rewrite bind_emit.
  cbn [trace completion world]. rewrite floating_completes. reflexivity.
Qed.

Lemma floating_trace (m : M unit) (w : World) :
  trace (floating m w) =
    (trace (m w) ++ match completion (m w) with
                    | Normal _ => []
                    | Throw error => [UnhandledRejection error]
                    end)%list.
Proof.
  unfold floating. cbv zeta.
  destruct (completion (m w)); cbn [trace]; [rewrite app_nil_r | ]; reflexivity.
Qed.

(** When the client cannot be built, [cancelDuplicates] throws what the
    constructor throws and has done nothing. *)
Lemma cancelDuplicates_no_client (env : gmap string string) (token selfRunId owner : string)
    (repo : option string) (branch : string) (error : JsError.t) (w : World) :
  GitHub env token = Throw error →
  cancelDuplicates env token selfRunId owner repo branch w =
    {| trace := []; completion := Throw error; world := w |}.
Proof. intros Hclient. unfold cancelDuplicates. rewrite Hclient. apply bind_lift_throw. Qed.

(** Once the client is built, the first thing [cancelDuplicates] does is
    the lookup of line 36. *)
Lemma cancelDuplicates_head (env : gmap string string) (token selfRunId owner : string)
    (repo : option string) (branch : string) (octokit : Client) (w : World) :
  GitHub env token = Normal octokit →
  ∃ rest : list Event,
    trace (cancelDuplicates env token selfRunId owner repo branch w) =
      GetWorkflowRun owner repo (parseInt selfRunId) :: rest.
Proof.
  intros Hclient. unfold cancelDuplicates.
  rewrite (bind_lift_normal _ _ _ _ Hclient). cbv beta zeta.
  rewrite bind_emit. cbn [trace]. eauto.
Qed.

(** The dropped promise of line 167 never reaches [core.setFailed]. *)
Lemma floating_cancelDuplicates_no_setFailed (env : gmap string string) (token selfRunId owner : string)
    (repo : option string) (branch : string) (w : World) :
  existsb isSetFailed
    (trace (floating (cancelDuplicates env token selfRunId owner repo branch) w)) = false.
Proof.
  rewrite floating_trace, existsb_app.
  destruct (cancelDuplicates_spec env token selfRunId owner repo branch w) as [-> _].
  destruct (completion _); reflexivity.
Qed.

(** Once [run] is at line 167, nothing that [cancelDuplicates] throws
    comes back to it: the handler of line 168 is not run, the error is
    left as the rejection of a promise nobody holds, and no cancel
    request has been sent. *)
Lemma cancelDuplicates_failure_is_dropped
    (selfRunId repository eventName ref : string)
    (env : gmap string string) (w : World) :
  env !! "GITHUB_RUN_ID" = Some selfRunId →
  env !! "GITHUB_REPOSITORY" = Some repository →
  env !! "GITHUB_EVENT_NAME" = Some eventName →
  Js.includes ["push"; "pull_request"] eventName = true →
  env !! (if String.eqb "pull_request" eventName then "GITHUB_HEAD_REF" else "GITHUB_REF")
    = Some ref →
  negb (String.eqb "pull_request" eventName) && negb (Js.startsWith ref "refs/heads/") = false →
  let owner := Js.orEmpty (Js.split "/" repository !! 0%nat) in
  let repo := Js.split "/" repository !! 1%nat in
  let branch := Js.replace "refs/heads/" "" ref in
  existsb isSetFailed (trace (run env w)) = false
  ∧ (∀ error : JsError.t,
       completion (cancelDuplicates env (githubToken env) selfRunId owner repo branch w) = Throw error →
       last (trace (run env w)) = Some (UnhandledRejection error)
       ∧ cancelCalls (trace (run env w)) = []).
Proof.
  intros Hid Hrepo Hevent Haccepted Href Hguard. cbv zeta.
  pose proof (run_calls_cancelDuplicates selfRunId repository eventName ref env w
                Hid Hrepo Hevent Haccepted Href Hguard) as Hrun.
  cbv zeta in Hrun. rewrite Hrun. cbn [trace existsb isSetFailed orb]. split.
  - apply floating_cancelDuplicates_no_setFailed.
  - intros error Herror. rewrite floating_trace, Herror. split.
    + rewrite !app_comm_cons. apply last_snoc.
    + rewrite !cancelCalls_info, cancelCalls_app.
      destruct (cancelDuplicates_spec env (githubToken env) selfRunId
                  (Js.orEmpty (Js.split "/" repository !! 0%nat))
                  (Js.split "/" repository !! 1%nat)
                  (Js.replace "refs/heads/" "" ref) w) as [_ Hcalls].
      rewrite (Hcalls error Herror). reflexivity.
Qed.

(** ** Claims about the driver and the entry point *)

(** C4: a cancel request that fails is caught and logged by [cancelRun]
    and goes no further.  Whatever the cancel collaborator answers, the
    loop sends one cancel request per duplicate, in order, completes
    normally and never calls [core.setFailed]; a failed request leaves a
    warning in the log, a successful one an informational line.  When
    [cancelDuplicates] does throw, it has not sent a cancel request
    yet: a cancel request is never what makes it fail. *)
Theorem C4_cancel_failure_is_contained (env : gmap string string) (octokit : Client)
    (token selfRunId owner : string) (repo : option string) (branch : string)
    (sorted : TreeMap.t Run.t) (id : N) (w : World) :
  let r := cancelLoop octokit selfRunId owner repo sorted w in
  (completion r = Normal tt
   ∧ cancelCalls (trace r) = map Run.id (duplicates sorted selfRunId)
   ∧ existsb isSetFailed (trace r) = false)
  ∧ match completion (cancelDuplicates env token selfRunId owner repo branch w) with
    | Normal _ => True
    | Throw _ =>
        cancelCalls (trace (cancelDuplicates env token selfRunId owner repo branch w)) = []
    end
  ∧ cancelRun octokit owner repo id w =
      match cancelWorkflowRun octokit owner repo id w with
      | (Normal reply, w') =>
          {| trace := [CancelWorkflowRun owner repo id;
                       Info ("Previous run (id " ++ Js.showN id
                             ++ ") cancelled, status = " ++ Js.showZ reply)];
             completion := Normal tt; world := w' |}
      | (Throw error, w') =>
          {| trace := [CancelWorkflowRun owner repo id;
                       Warning ("Could not cancel run (id " ++ Js.showN id ++ "): ["
                                ++ Js.showOpt Js.showZ (JsError.status error) ++ "] "
                                ++ JsError.message error)];
             completion := Normal tt; world := w' |}
      end.
Proof.
  split; [ | split].
  - apply cancelLoop_spec.
  - destruct (cancelDuplicates_spec env token selfRunId owner repo branch w) as [_ Hthrow].
    destruct (completion (cancelDuplicates env token selfRunId owner repo branch w)) as [ | error];
      [exact I | by apply (Hthrow error)].
  - unfold cancelRun, tryCatch, bind, emit, info, warning. cbn [trace completion world].
    destruct (cancelWorkflowRun octokit owner repo id w) as [[reply | error] w']; reflexivity.
Qed.

(** C9: the first thing [run] does is to write the token, the input
    [github-token] as [core.getInput] returns it, to the informational
    log, so the log determines the token. *)
Theorem C9_token_is_logged (env env' : gmap string string) (w : World) :
  head (trace (run env w)) = Some (Info (getInput env "github-token"))
  ∧ (getInput env "github-token" ≠ getInput env' "github-token" →
     trace (run env w) ≠ trace (run env' w)).
Proof.
  assert (Hhead : ∀ e, head (trace (run e w)) = Some (Info (getInput e "github-token"))).
  { intros e. unfold run, tryCatch, githubToken. cbv zeta. rewrite bind_unfold.
    cbn [info emit trace completion world].
    match goal with |- context [completion ?m] => destruct (completion m) end; reflexivity. }
  split; [apply Hhead | ].
  intros Hne Heq. apply Hne.
  pose proof (Hhead env) as H1. pose proof (Hhead env') as H2.
  rewrite Heq in H1. congruence.
Qed.

(** C3, as the code has it: a push whose ref begins with [refs/tags/]
    is skipped, and so is every event other than push and pull_request:
    [run] logs the token and the reason and does nothing else (no
    lookup, no listing, no cancel request, no failure).  The head ref of
    a pull_request is not looked at for any prefix: whatever it is,
    [run] goes on to [cancelDuplicates], with the head ref as the branch
    (less a first [refs/heads/] in it). *)
Theorem C3_tag_push_and_other_events_are_skipped
    (selfRunId repository eventName : string)
    (env : gmap string string) (w : World) :
  env !! "GITHUB_RUN_ID" = Some selfRunId →
  env !! "GITHUB_REPOSITORY" = Some repository →
  env !! "GITHUB_EVENT_NAME" = Some eventName →
  (Js.includes ["push"; "pull_request"] eventName = false →
     run env w =
       {| trace := [Info (githubToken env); Info ("Skipping unsupported event: " ++ eventName)];
          completion := Normal tt; world := w |})
  ∧ (∀ ref : string,
       eventName = "push" →
       env !! "GITHUB_REF" = Some ref →
       Js.startsWith ref "refs/tags/" = true →
       run env w =
         {| trace := [Info (githubToken env); Info ("Skipping tag build: " ++ ref)];
            completion := Normal tt; world := w |})
  ∧ (∀ ref : string,
       eventName = "pull_request" →
       env !! "GITHUB_HEAD_REF" = Some ref →
       let owner := Js.orEmpty (Js.split "/" repository !! 0%nat) in
       let repo := Js.split "/" repository !! 1%nat in
       let branch := Js.replace "refs/heads/" "" ref in
       let call :=
         floating (cancelDuplicates env (githubToken env) selfRunId owner repo branch) w in
       run env w =
         {| trace := Info (githubToken env)
                     :: Info ("Branch is " ++ branch ++ ", repo is " ++ Js.showOpt (λ s, s) repo
                              ++ ", and owner is " ++ owner ++ ", and id is " ++ selfRunId)
                     :: trace call;
            completion := Normal tt; world := world call |}).
Proof.
  intros Hid Hrepo Hevent. split; [ | split].
  - intros Hskip. eapply run_unsupported_event; eassumption.
  - intros ref -> Href Htag. eapply run_tag_build; eassumption.
  - intros ref -> Href.
    apply (run_calls_cancelDuplicates selfRunId repository "pull_request" ref env w
             Hid Hrepo Hevent eq_refl Href eq_refl).
Qed.

(** C10: [getRequiredEnv] throws exactly when the variable is undefined;
    the empty string is returned like any other value.  With an empty
    event name [run] goes on to the event check.  With an empty run
    identifier and an empty repository slug [run] goes on to call
    [cancelDuplicates] with the empty identifier, the empty owner and
    no repository; [core.setFailed] is not called, and when the client
    can be built the lookup is sent with these empty values. *)
Theorem C10_empty_variables_are_accepted (ref : string)
    (env : gmap string string) (w : World) :
  (∀ key : string, (∃ error, getRequiredEnv env key = Throw error) ↔ env !! key = None)
  ∧ (∀ key : string, env !! key = Some "" → getRequiredEnv env key = Normal "")
  ∧ (env !! "GITHUB_RUN_ID" = Some "" →
     env !! "GITHUB_REPOSITORY" = Some "" →
     env !! "GITHUB_EVENT_NAME" = Some "" →
     run env w =
       {| trace := [Info (githubToken env); Info "Skipping unsupported event: "];
          completion := Normal tt; world := w |})
  ∧ (env !! "GITHUB_RUN_ID" = Some "" →
     env !! "GITHUB_REPOSITORY" = Some "" →
     env !! "GITHUB_EVENT_NAME" = Some "push" →
     env !! "GITHUB_REF" = Some ref →
     Js.startsWith ref "refs/heads/" = true →
     let branch := Js.replace "refs/heads/" "" ref in
     let call := floating (cancelDuplicates env (githubToken env) "" "" None branch) w in
     run env w =
       {| trace := Info (githubToken env)
                   :: Info ("Branch is " ++ branch
                            ++ ", repo is undefined, and owner is , and id is ")
                   :: trace call;
          completion := Normal tt; world := world call |}
     ∧ existsb isSetFailed (trace (run env w)) = false
     ∧ (∀ octokit : Client,
          GitHub env (githubToken env) = Normal octokit →
          ∃ rest : list Event,
            trace (run env w) =
              Info (githubToken env)
              :: Info ("Branch is " ++ branch
                       ++ ", repo is undefined, and owner is , and id is ")
              :: GetWorkflowRun "" None (parseInt "")
              :: rest)).
Proof.
  split; [ | split; [ | split]].
  - intros key. unfold getRequiredEnv. destruct (env !! key) as [value | ].
    + split; [intros [error Herr]; discriminate | discriminate].
    + split; [reflexivity | eauto].
  - intros key Hkey. apply getRequiredEnv_defined, Hkey.
  - intros Hid Hrepo Hevent.
    apply (run_unsupported_event "" "" "" env w Hid Hrepo Hevent). reflexivity.
  - intros Hid Hrepo Hevent Href Hbranch. cbv zeta.
    pose proof (run_calls_cancelDuplicates "" "" "push" ref env w
                  Hid Hrepo Hevent eq_refl Href) as Hrun.
    cbv zeta in Hrun. rewrite Hrun.
    2:{ rewrite Hbranch. reflexivity. }
    cbn [trace Js.split Js.orEmpty Js.showOpt lookup list_lookup default id].
    split; [reflexivity | split].
    + cbn [existsb isSetFailed orb]. apply floating_cancelDuplicates_no_setFailed.
    + intros octokit Hclient.
      destruct (cancelDuplicates_head env (githubToken env) "" "" None
                  (Js.replace "refs/heads/" "" ref) octokit w Hclient) as [rest Hrest].
      rewrite floating_trace, Hrest. eexists. reflexivity.
Qed.

(** ** Further properties of the entry point *)

Lemma getRequiredEnv_undefined (env : gmap string string) (key : string) :
  env !! key = None →
  getRequiredEnv env key = Throw (JsError.Error (key ++ " was not defined.")).
Proof. unfold getRequiredEnv. intros ->. reflexivity. Qed.

Ltac env_defined_all H :=
  rewrite !(bind_lift_normal _ _ _ _ (getRequiredEnv_defined _ _ _ H)); cbv beta.

Ltac env_undefined H :=
  rewrite (getRequiredEnv_undefined _ _ H), !bind_lift_throw; cbv beta.

Lemma run_undefined_run_id (env : gmap string string) (w : World) :
  env !! "GITHUB_RUN_ID" = None →
  run env w = failedEarly (githubToken env) "GITHUB_RUN_ID was not defined." w.
Proof.
  intros Hid. unfold run, tryCatch, info. cbv zeta. rewrite bind_emit.
  env_undefined Hid. reflexivity.
Qed.

Lemma run_undefined_repository (selfRunId : string) (env : gmap string string) (w : World) :
  env !! "GITHUB_RUN_ID" = Some selfRunId →
  env !! "GITHUB_REPOSITORY" = None →
  run env w = failedEarly (githubToken env) "GITHUB_REPOSITORY was not defined." w.
Proof.
  intros Hid Hrepo. unfold run, tryCatch, info. cbv zeta. rewrite bind_emit.
  env_defined Hid. env_undefined Hrepo. reflexivity.
Qed.

Lemma run_undefined_event_name (selfRunId repository : string)
    (env : gmap string string) (w : World) :
  env !! "GITHUB_RUN_ID" = Some selfRunId →
  env !! "GITHUB_REPOSITORY" = Some repository →
  env !! "GITHUB_EVENT_NAME" = None →
  run env w = failedEarly (githubToken env) "GITHUB_EVENT_NAME was not defined." w.
Proof.
  intros Hid Hrepo Hevent. unfold run, tryCatch, info. cbv zeta. rewrite bind_emit.
  env_defined Hid. env_defined Hrepo. env_undefined Hevent. reflexivity.
Qed.

Lemma run_undefined_ref (selfRunId repository eventName : string)
    (env : gmap string string) (w : World) :
  env !! "GITHUB_RUN_ID" = Some selfRunId →
  env !! "GITHUB_REPOSITORY" = Some repository →
  env !! "GITHUB_EVENT_NAME" = Some eventName →
  Js.includes ["push"; "pull_request"] eventName = true →
  env !! refVariable eventName = None →
  run env w = failedEarly (githubToken env) (refVariable eventName ++ " was not defined.") w.
Proof.
  unfold refVariable. intros Hid Hrepo Hevent Haccepted Href.
  unfold run, tryCatch, info. cbv zeta. rewrite bind_emit.
  env_defined Hid. env_defined Hrepo. env_defined Hevent.
  rewrite Haccepted. cbn [negb]. env_undefined Href. reflexivity.
Qed.

Lemma run_unexpected_ref (selfRunId repository eventName ref : string)
    (env : gmap string string) (w : World) :
  env !! "GITHUB_RUN_ID" = Some selfRunId →
  env !! "GITHUB_REPOSITORY" = Some repository →
  env !! "GITHUB_EVENT_NAME" = Some eventName →
  Js.includes ["push"; "pull_request"] eventName = true →
  env !! refVariable eventName = Some ref →
  negb (String.eqb "pull_request" eventName) && negb (Js.startsWith ref "refs/heads/") = true →
  Js.startsWith ref "refs/tags/" = false →
  run env w
  = failedEarly (githubToken env) (ref ++ " was not an expected branch ref (refs/heads/).") w.
Proof.
  unfold refVariable. intros Hid Hrepo Hevent Haccepted Href Hguard Htag.
  unfold run, tryCatch, info. cbv zeta. rewrite bind_emit.
  env_defined Hid. env_defined Hrepo. env_defined Hevent.
  rewrite Haccepted. cbn [negb]. env_defined Href. rewrite Hguard, Htag. reflexivity.
Qed.

Lemma run_tag (selfRunId repository eventName ref : string)
    (env : gmap string string) (w : World) :
  env !! "GITHUB_RUN_ID" = Some selfRunId →
  env !! "GITHUB_REPOSITORY" = Some repository →
  env !! "GITHUB_EVENT_NAME" = Some eventName →
  Js.includes ["push"; "pull_request"] eventName = true →
  env !! refVariable eventName = Some ref →
  negb (String.eqb "pull_request" eventName) && negb (Js.startsWith ref "refs/heads/") = true →
  Js.startsWith ref "refs/tags/" = true →
  run env w
  = {| trace := [Info (githubToken env); Info ("Skipping tag build: " ++ ref)];
       completion := Normal tt; world := w |}.
Proof.
  unfold refVariable. intros Hid Hrepo Hevent Haccepted Href Hguard Htag.
  unfold run, tryCatch, info. cbv zeta. rewrite bind_emit.
  env_defined Hid. env_defined Hrepo. env_defined Hevent.
  rewrite Haccepted. cbn [negb]. env_defined Href. rewrite Hguard, Htag. reflexivity.
Qed.

(** X1: [run] calls [core.setFailed] only before it has done anything
    else.  Either the trace is the token line followed by the failure and
    the world is untouched (no lookup, no listing, no cancel request), or
    [core.setFailed] is not called at all. *)
Theorem X1_run_fails_only_before_any_request (env : gmap string string) (w : World) :
  (∃ message : string, run env w = failedEarly (githubToken env) message w)
  ∨ existsb isSetFailed (trace (run env w)) = false.
Proof.
  destruct (env !! "GITHUB_RUN_ID") as [selfRunId | ] eqn:Hid;
    [ | left; eexists; by apply run_undefined_run_id].
  destruct (env !! "GITHUB_REPOSITORY") as [repository | ] eqn:Hrepo;
    [ | left; eexists; by eapply run_undefined_repository].
  destruct (env !! "GITHUB_EVENT_NAME") as [eventName | ] eqn:Hevent;
    [ | left; eexists; by eapply run_undefined_event_name].
  destruct (Js.includes ["push"; "pull_request"] eventName) eqn:Haccepted;
    [ | right; by erewrite run_unsupported_event].
  destruct (env !! refVariable eventName) as [ref | ] eqn:Href;
    [ | left; eexists; by eapply run_undefined_ref].
  destruct (negb (String.eqb "pull_request" eventName)
            && negb (Js.startsWith ref "refs/heads/")) eqn:Hguard.
  - destruct (Js.startsWith ref "refs/tags/") eqn:Htag.
    + right. by erewrite run_tag.
    + left. eexists. by eapply run_unexpected_ref.
  - right.
    pose proof (run_calls_cancelDuplicates selfRunId repository eventName ref env w
                  Hid Hrepo Hevent Haccepted Href Hguard) as Hrun.
    cbv zeta in Hrun. rewrite Hrun. cbn [trace existsb isSetFailed orb].
    apply floating_cancelDuplicates_no_setFailed.
Qed.

(** X2: the required variables are read in the order run identifier,
    repository, event name, ref, and the first one that is undefined is
    the one the failure names.  The ref is read only for an accepted
    event, from [GITHUB_HEAD_REF] for a pull_request and from
    [GITHUB_REF] for a push. *)
Theorem X2_first_undefined_variable_is_reported
    (selfRunId repository eventName : string)
    (env : gmap string string) (w : World) :
  (env !! "GITHUB_RUN_ID" = None →
   run env w = failedEarly (githubToken env) "GITHUB_RUN_ID was not defined." w)
  ∧ (env !! "GITHUB_RUN_ID" = Some selfRunId →
     env !! "GITHUB_REPOSITORY" = None →
     run env w = failedEarly (githubToken env) "GITHUB_REPOSITORY was not defined." w)
  ∧ (env !! "GITHUB_RUN_ID" = Some selfRunId →
     env !! "GITHUB_REPOSITORY" = Some repository →
     env !! "GITHUB_EVENT_NAME" = None →
     run env w = failedEarly (githubToken env) "GITHUB_EVENT_NAME was not defined." w)
  ∧ (env !! "GITHUB_RUN_ID" = Some selfRunId →
     env !! "GITHUB_REPOSITORY" = Some repository →
     env !! "GITHUB_EVENT_NAME" = Some "pull_request" →
     env !! "GITHUB_HEAD_REF" = None →
     run env w = failedEarly (githubToken env) "GITHUB_HEAD_REF was not defined." w)
  ∧ (env !! "GITHUB_RUN_ID" = Some selfRunId →
     env !! "GITHUB_REPOSITORY" = Some repository →
     env !! "GITHUB_EVENT_NAME" = Some "push" →
     env !! "GITHUB_REF" = None →
     run env w = failedEarly (githubToken env) "GITHUB_REF was not defined." w).
Proof.
  repeat split.
  - apply run_undefined_run_id.
  - apply run_undefined_repository.
  - apply run_undefined_event_name.
  - intros Hid Hrepo Hevent Href.
    by apply (run_undefined_ref selfRunId repository "pull_request" env w).
  - intros Hid Hrepo Hevent Href.
    by apply (run_undefined_ref selfRunId repository "push" env w).
Qed.

(** X3: a push whose ref begins neither with [refs/heads/] nor with
    [refs/tags/] fails the invocation, with a message that quotes the
    ref, before any request. *)
Theorem X3_push_of_unexpected_ref_fails (selfRunId repository ref : string)
    (env : gmap string string) (w : World) :
  env !! "GITHUB_RUN_ID" = Some selfRunId →
  env !! "GITHUB_REPOSITORY" = Some repository →
  env !! "GITHUB_EVENT_NAME" = Some "push" →
  env !! "GITHUB_REF" = Some ref →
  Js.startsWith ref "refs/heads/" = false →
  Js.startsWith ref "refs/tags/" = false →
  run env w
  = failedEarly (githubToken env) (ref ++ " was not an expected branch ref (refs/heads/).") w.
Proof.
  intros Hid Hrepo Hevent Href Hbranch Htag.
  apply (run_unexpected_ref selfRunId repository "push" ref env w); try done.
  by rewrite Hbranch.
Qed.

(** [cancelDuplicates] reads the environment through the constructor
    of the client only. *)
Lemma cancelDuplicates_ext (env env' : gmap string string) (token selfRunId owner : string)
    (repo : option string) (branch : string) :
  GitHub env' token = GitHub env token →
  cancelDuplicates env' token selfRunId owner repo branch
  = cancelDuplicates env token selfRunId owner repo branch.
Proof. intros Hclient. unfold cancelDuplicates. rewrite Hclient. reflexivity. Qed.

(** X4: besides the token input and what the constructor of the client
    reads, [run] depends on the environment through four variables only:
    the run identifier, the repository, the event name and the one ref
    variable of that event.  Two environments that give the same token
    and the same client and agree on these four give the same outcome;
    so [GITHUB_REF] does not matter to a pull_request, nor
    [GITHUB_HEAD_REF] to a push. *)
Theorem X4_run_reads_four_variables (env env' : gmap string string) (w : World) :
  getInput env' "github-token" = getInput env "github-token" →
  GitHub env' (getInput env "github-token") = GitHub env (getInput env "github-token") →
  env' !! "GITHUB_RUN_ID" = env !! "GITHUB_RUN_ID" →
  env' !! "GITHUB_REPOSITORY" = env !! "GITHUB_REPOSITORY" →
  env' !! "GITHUB_EVENT_NAME" = env !! "GITHUB_EVENT_NAME" →
  (∀ eventName : string,
     env !! "GITHUB_EVENT_NAME" = Some eventName →
     env' !! refVariable eventName = env !! refVariable eventName) →
  run env' w = run env w.
Proof.
  intros Htoken Hclient Hid Hrepo Hevent Href.
  assert (Hread : ∀ key : string,
             env' !! key = env !! key → getRequiredEnv env' key = getRequiredEnv env key).
  { intros key Hkey. unfold getRequiredEnv. by rewrite Hkey. }
  unfold run, tryCatch, info, githubToken. cbv zeta. rewrite Htoken. rewrite !bind_emit.
  rewrite (Hread _ Hid), (Hread _ Hrepo), (Hread _ Hevent).
  destruct (env !! "GITHUB_RUN_ID") as [selfRunId | ] eqn:Hid0;
    [env_defined_all Hid0 | env_undefined Hid0; reflexivity].
  destruct (env !! "GITHUB_REPOSITORY") as [repository | ] eqn:Hrepo0.
  2:{ env_undefined Hrepo0. reflexivity. }
  env_defined_all Hrepo0.
  destruct (env !! "GITHUB_EVENT_NAME") as [eventName | ] eqn:Hevent0;
    [env_defined_all Hevent0 | env_undefined Hevent0; reflexivity].
  destruct (negb (Js.includes ["push"; "pull_request"] eventName)); [reflexivity | ].
  specialize (Href eventName eq_refl). unfold refVariable in Href.
  rewrite (Hread _ Href).
  assert (Hcall : ∀ selfRunId owner repo branch,
             cancelDuplicates env' (getInput env "github-token") selfRunId owner repo branch
             = cancelDuplicates env (getInput env "github-token") selfRunId owner repo branch).
  { intros. by apply cancelDuplicates_ext. }
  destruct (env !! (if String.eqb "pull_request" eventName then "GITHUB_HEAD_REF" else "GITHUB_REF"))
    as [ref | ] eqn:Href0; [env_defined_all Href0 | env_undefined Href0; reflexivity].
  rewrite Hcall. reflexivity.
Qed.

(** *** Strings: prefixes, the first occurrence, the parts of a path *)

Lemma append_nil (s : string) : "" ++ s = s.
Proof. reflexivity. Qed.

Lemma append_cons (c : ascii) (p s : string) : String c p ++ s = String c (p ++ s).
Proof. reflexivity. Qed.

Lemma startsWith_app (p s : string) : Js.startsWith (p ++ s) p = true.
Proof.
  unfold Js.startsWith. induction p as [ | c p IH].
  - rewrite append_nil. destruct s; reflexivity.
  - rewrite append_cons. cbn [String.prefix].
    destruct (ascii_dec c c) as [_ | Hne]; [exact IH | by destruct Hne].
Qed.

Lemma substring_all (s : string) : substring 0 (String.length s) s = s.
Proof. induction s as [ | c s IH]; [done | ]. cbn [String.length substring]. by rewrite IH. Qed.

Lemma substring_after (p s : string) :
  substring (String.length p) (String.length (p ++ s) - String.length p) (p ++ s) = s.
Proof.
  induction p as [ | c p IH].
  - rewrite append_nil. cbn [String.length]. rewrite Nat.sub_0_r. apply substring_all.
  - rewrite append_cons. cbn [String.length substring Nat.sub]. exact IH.
Qed.

Lemma replace_unfold (pat rep s : string) :
  Js.replace pat rep s =
    if String.prefix pat s
    then rep ++ substring (String.length pat) (String.length s - String.length pat) s
    else match s with
         | EmptyString => EmptyString
         | String c s' => String c (Js.replace pat rep s')
         end.
Proof. by destruct s. Qed.

(** Replacing a prefix takes it off. *)
Lemma replace_prefix (p rep s : string) : Js.replace p rep (p ++ s) = rep ++ s.
Proof.
  rewrite replace_unfold. pose proof (startsWith_app p s) as Hprefix.
  unfold Js.startsWith in Hprefix. rewrite Hprefix, substring_after. reflexivity.
Qed.

Lemma split_noSlash (s : string) : noSlash s = true → Js.split "/" s = [s].
Proof.
  induction s as [ | c s IH]; [done | ]. cbn [noSlash Js.split].
  intros [Hc Hs]%andb_true_iff. apply negb_true_iff in Hc. rewrite Hc, (IH Hs). reflexivity.
Qed.

(** The first part of a path is the text before its first slash. *)
Lemma split_first (o rest : string) :
  noSlash o = true → Js.split "/" (o ++ String "/" rest) = o :: Js.split "/" rest.
Proof.
  induction o as [ | c o IH]; [done | ]. rewrite append_cons. cbn [noSlash Js.split].
  intros [Hc Ho]%andb_true_iff. apply negb_true_iff in Hc. rewrite Hc, (IH Ho). reflexivity.
Qed.

(** The last part of a path is the text after its last slash. *)
Lemma split_last (p seg : string) :
  noSlash seg = true → Js.pop (Js.split "/" (p ++ String "/" seg)) = Some seg.
Proof.
  intros Hseg. unfold Js.pop.
  assert (Hsplit : ∃ (w : string) (ws : list string),
             Js.split "/" (p ++ String "/" seg) = w :: ws ∧ last ws = Some seg).
  { induction p as [ | c p (w & ws & Hp & Hws)].
    - exists EmptyString, [seg]. rewrite append_nil. cbn [Js.split Ascii.eqb Bool.eqb].
      by rewrite (split_noSlash seg Hseg).
    - rewrite append_cons. cbn [Js.split]. rewrite Hp. destruct (Ascii.eqb c "/").
      + exists EmptyString, (w :: ws). split; [done | ]. by rewrite last_cons, Hws.
      + by exists (String c w), ws. }
  destruct Hsplit as (w & ws & -> & Hws). by rewrite last_cons, Hws.
Qed.

(** X5: for a push to [refs/heads/b] in the repository [o/r], the
    owner is [o], the repository [r] and the branch [b]: [run] logs them
    and calls [cancelDuplicates] with them, and its outcome is that of
    the call. *)
Theorem X5_push_scopes_to_owner_repo_branch (selfRunId o r b : string)
    (env : gmap string string) (w : World) :
  env !! "GITHUB_RUN_ID" = Some selfRunId →
  env !! "GITHUB_REPOSITORY" = Some (o ++ "/" ++ r) →
  noSlash o = true →
  noSlash r = true →
  env !! "GITHUB_EVENT_NAME" = Some "push" →
  env !! "GITHUB_REF" = Some ("refs/heads/" ++ b) →
  let call := floating (cancelDuplicates env (githubToken env) selfRunId o (Some r) b) w in
  run env w =
    {| trace := Info (githubToken env)
                :: Info ("Branch is " ++ b ++ ", repo is " ++ r
                         ++ ", and owner is " ++ o ++ ", and id is " ++ selfRunId)
                :: trace call;
       completion := Normal tt; world := world call |}.
Proof.
  intros Hid Hrepo Ho Hr Hevent Href.
  pose proof (run_calls_cancelDuplicates selfRunId (o ++ "/" ++ r) "push"
                ("refs/heads/" ++ b) env w Hid Hrepo Hevent eq_refl Href) as Hrun.
  cbv zeta in Hrun. rewrite Hrun.
  2:{ rewrite (startsWith_app "refs/heads/" b). reflexivity. }
  change ("/" ++ r) with (String "/" r).
  rewrite (split_first o r Ho), (split_noSlash r Hr), (replace_prefix "refs/heads/" "" b).
  reflexivity.
Qed.

(** ** Further properties of [cancelDuplicates] *)

(** [cancelDuplicates] after a lookup that names a workflow. *)
Lemma cancelDuplicates_resolved (env : gmap string string) (token selfRunId owner : string)
    (repo : option string) (branch workflow_url : string) (octokit : Client) (w : World) :
  GitHub env token = Normal octokit →
  getWorkflowRun octokit owner repo (parseInt selfRunId) = Normal workflow_url →
  let workflowId := Js.orEmpty (Js.pop (Js.split "/" workflow_url)) in
  workflowId ≠ "" →
  cancelDuplicates env token selfRunId owner repo branch w =
    (emit (GetWorkflowRun owner repo (parseInt selfRunId)) ;;;
     info ("Workflow ID is: " ++ workflowId) ;;;
     sorted <- collect octokit owner repo workflowId branch ;;
     info ("Found queued/in_progress workflows: " ++ Js.showNat (TreeMap.size sorted)) ;;;
     cancelLoop octokit selfRunId owner repo sorted) w.
Proof.
  intros Hclient Hlookup workflowId Hid. unfold cancelDuplicates.
  rewrite (bind_lift_normal _ _ _ _ Hclient). cbv beta zeta.
  rewrite !bind_emit. rewrite (bind_lift_normal _ _ _ _ Hlookup). cbv beta.
  fold workflowId. destruct workflowId; [done | reflexivity].
Qed.

(** The three ways the Collector ends. *)
Lemma collect_outcome (octokit : Client) (owner : string) (repo : option string)
    (workflowId branch : string) (w : World) :
  let queued := createRunsQuery owner repo workflowId "queued" branch in
  let in_progress := createRunsQuery owner repo workflowId "in_progress" branch in
  collect octokit owner repo workflowId branch w =
    match mergeListing (listWorkflowRuns octokit queued) TreeMap.empty with
    | Throw error =>
        {| trace := [ListWorkflowRuns queued]; completion := Throw error; world := w |}
    | Normal sorted1 =>
        {| trace := [ListWorkflowRuns queued; ListWorkflowRuns in_progress];
           completion := mergeListing (listWorkflowRuns octokit in_progress) sorted1;
           world := w |}
    end.
Proof.
  cbv zeta. unfold collect. cbn [forOfSorted]. unfold bind, lift, emit, ret.
  cbn [trace completion world].
  destruct (mergeListing _ TreeMap.empty) as [sorted1 | error1]; [ | reflexivity].
  cbn [trace completion world].
  destruct (mergeListing _ sorted1) as [sorted2 | error2]; reflexivity.
Qed.

(** X6: the workflow whose runs are listed is the one named by the last
    path segment of the [workflow_url] of the current run: once the
    client is built and the lookup has answered, [cancelDuplicates] logs
    that segment and sends the first listing request for it, for the
    status [queued] and the branch. *)
Theorem X6_workflow_is_last_segment_of_url (env : gmap string string)
    (token selfRunId owner : string) (repo : option string)
    (branch prefix workflowId : string) (octokit : Client) (w : World) :
  GitHub env token = Normal octokit →
  getWorkflowRun octokit owner repo (parseInt selfRunId)
    = Normal (prefix ++ "/" ++ workflowId) →
  noSlash workflowId = true →
  workflowId ≠ "" →
  ∃ rest : list Event,
    trace (cancelDuplicates env token selfRunId owner repo branch w) =
      GetWorkflowRun owner repo (parseInt selfRunId)
      :: Info ("Workflow ID is: " ++ workflowId)
      :: ListWorkflowRuns (createRunsQuery owner repo workflowId "queued" branch)
      :: rest.
Proof.
  intros Hclient Hlookup Hseg Hid.
  pose proof (cancelDuplicates_resolved env token selfRunId owner repo branch _ octokit w
                Hclient Hlookup) as Hcd.
  cbv zeta in Hcd. change ("/" ++ workflowId) with (String "/" workflowId) in Hcd.
  rewrite (split_last prefix workflowId Hseg) in Hcd. cbn [Js.orEmpty default id] in Hcd.
  rewrite (Hcd Hid). unfold info. rewrite !bind_emit. cbn [trace].
  rewrite bind_unfold, collect_outcome. cbv zeta.
  destruct (mergeListing _ TreeMap.empty) as [sorted1 | error1]; cbn [trace completion world].
  - destruct (mergeListing _ sorted1); cbn [trace app]; eauto.
  - eauto.
Qed.

(** X7: the three ways [cancelDuplicates] stops before the Collector.
    When the client cannot be built, it throws the error of the
    constructor and sends no request at all.  When the lookup fails,
    it throws the error of the lookup; when the [workflow_url] is empty
    or ends with a slash, it throws [Could not resolve workflow]; in
    these two cases the lookup is the only request that was sent. *)
Theorem X7_unresolved_workflow_stops_after_the_lookup (env : gmap string string)
    (token selfRunId owner : string) (repo : option string) (branch : string) (w : World) :
  (∀ error : JsError.t,
     GitHub env token = Throw error →
     cancelDuplicates env token selfRunId owner repo branch w =
       {| trace := []; completion := Throw error; world := w |})
  ∧ (∀ (octokit : Client) (error : JsError.t),
       GitHub env token = Normal octokit →
       getWorkflowRun octokit owner repo (parseInt selfRunId) = Throw error →
       cancelDuplicates env token selfRunId owner repo branch w =
         {| trace := [GetWorkflowRun owner repo (parseInt selfRunId)];
            completion := Throw error; world := w |})
  ∧ (∀ (octokit : Client) (workflow_url : string),
       GitHub env token = Normal octokit →
       getWorkflowRun octokit owner repo (parseInt selfRunId) = Normal workflow_url →
       workflow_url = "" ∨ (∃ prefix : string, workflow_url = prefix ++ "/") →
       cancelDuplicates env token selfRunId owner repo branch w =
         {| trace := [GetWorkflowRun owner repo (parseInt selfRunId)];
            completion := Throw (JsError.Error "Could not resolve workflow");
            world := w |}).
Proof.
  split; [ | split].
  - intros error Hclient. by apply cancelDuplicates_no_client.
  - intros octokit error Hclient Hlookup. unfold cancelDuplicates.
    rewrite (bind_lift_normal _ _ _ _ Hclient). cbv beta zeta.
    rewrite bind_emit, Hlookup, bind_lift_throw. reflexivity.
  - intros octokit workflow_url Hclient Hlookup Hurl. unfold cancelDuplicates.
    rewrite (bind_lift_normal _ _ _ _ Hclient). cbv beta zeta.
    rewrite bind_emit, (bind_lift_normal _ _ _ _ Hlookup). cbv beta.
    assert (Hid : Js.orEmpty (Js.pop (Js.split "/" workflow_url)) = "").
    { destruct Hurl as [-> | [prefix ->]]; [reflexivity | ].
      by rewrite (split_last prefix "" eq_refl). }
    rewrite Hid. reflexivity.
Qed.

(** X8: a listing that fails stops the Collector at once.  With the
    client built and the workflow resolved: when the listing of the
    queued runs fails, the in-progress runs are not asked for; in either
    case [cancelDuplicates] throws the error of the listing, the records
    merged so far are dropped, and no cancel request is sent. *)
Theorem X8_listing_failure_stops_the_collector (env : gmap string string)
    (token selfRunId owner : string) (repo : option string) (branch workflow_url : string)
    (octokit : Client) (w : World) :
  GitHub env token = Normal octokit →
  getWorkflowRun octokit owner repo (parseInt selfRunId) = Normal workflow_url →
  let workflowId := Js.orEmpty (Js.pop (Js.split "/" workflow_url)) in
  let queued := createRunsQuery owner repo workflowId "queued" branch in
  let in_progress := createRunsQuery owner repo workflowId "in_progress" branch in
  workflowId ≠ "" →
  (∀ error : JsError.t,
     mergeListing (listWorkflowRuns octokit queued) TreeMap.empty = Throw error →
     cancelDuplicates env token selfRunId owner repo branch w =
       {| trace := [GetWorkflowRun owner repo (parseInt selfRunId);
                    Info ("Workflow ID is: " ++ workflowId);
                    ListWorkflowRuns queued];
          completion := Throw error; world := w |})
  ∧ (∀ (sorted1 : TreeMap.t Run.t) (error : JsError.t),
       mergeListing (listWorkflowRuns octokit queued) TreeMap.empty = Normal sorted1 →
       mergeListing (listWorkflowRuns octokit in_progress) sorted1 = Throw error →
       cancelDuplicates env token selfRunId owner repo branch w =
         {| trace := [GetWorkflowRun owner repo (parseInt selfRunId);
                      Info ("Workflow ID is: " ++ workflowId);
                      ListWorkflowRuns queued;
                      ListWorkflowRuns in_progress];
            completion := Throw error; world := w |}).
Proof.
  intros Hclient Hlookup workflowId queued in_progress Hid.
  pose proof (cancelDuplicates_resolved env token selfRunId owner repo branch _ octokit w
                Hclient Hlookup Hid) as Hcd.
  cbv zeta in Hcd. fold workflowId in Hcd. rewrite Hcd. unfold info.
  rewrite !bind_emit, bind_unfold, collect_outcome. cbv zeta.
  fold queued in_progress.
  split.
  - intros error ->. reflexivity.
  - intros sorted1 error -> Herror. cbn [trace completion world]. rewrite Herror. reflexivity.
Qed.

(** X9: when the client is built, the lookup names a workflow and both
    listings end, an invocation of [cancelDuplicates] is: the lookup,
    the listing of the queued runs, the listing of the in-progress runs,
    the count of the merged set, then the loop over that set; it
    completes normally. *)
Theorem X9_cancelDuplicates_in_order (env : gmap string string)
    (token selfRunId owner : string) (repo : option string) (branch workflow_url : string)
    (sorted : TreeMap.t Run.t) (octokit : Client) (w : World) :
  GitHub env token = Normal octokit →
  getWorkflowRun octokit owner repo (parseInt selfRunId) = Normal workflow_url →
  let workflowId := Js.orEmpty (Js.pop (Js.split "/" workflow_url)) in
  let queued := createRunsQuery owner repo workflowId "queued" branch in
  let in_progress := createRunsQuery owner repo workflowId "in_progress" branch in
  workflowId ≠ "" →
  mergeListings [listWorkflowRuns octokit queued; listWorkflowRuns octokit in_progress]
                TreeMap.empty = Normal sorted →
  let loop := cancelLoop octokit selfRunId owner repo sorted w in
  cancelDuplicates env token selfRunId owner repo branch w =
    {| trace := GetWorkflowRun owner repo (parseInt selfRunId)
                :: Info ("Workflow ID is: " ++ workflowId)
                :: ListWorkflowRuns queued
                :: ListWorkflowRuns in_progress
                :: Info ("Found queued/in_progress workflows: "
                         ++ Js.showNat (TreeMap.size sorted))
                :: trace loop;
       completion := Normal tt; world := world loop |}
  ∧ cancelCalls (trace (cancelDuplicates env token selfRunId owner repo branch w))
    = map Run.id (duplicates sorted selfRunId).
Proof.
  intros Hclient Hlookup workflowId queued in_progress Hid Hmerge loop.
  pose proof (cancelDuplicates_resolved env token selfRunId owner repo branch _ octokit w
                Hclient Hlookup Hid) as Hcd.
  cbv zeta in Hcd. fold workflowId in Hcd.
  destruct (cancelLoop_spec octokit selfRunId owner repo sorted w) as (Hc & Hcalls & _).
  fold loop in Hc, Hcalls.
  assert (Hrun : cancelDuplicates env token selfRunId owner repo branch w =
    {| trace := GetWorkflowRun owner repo (parseInt selfRunId)
                :: Info ("Workflow ID is: " ++ workflowId)
                :: ListWorkflowRuns queued
                :: ListWorkflowRuns in_progress
                :: Info ("Found queued/in_progress workflows: "
                         ++ Js.showNat (TreeMap.size sorted))
                :: trace loop;
       completion := Normal tt; world := world loop |}).
  { rewrite Hcd. unfold info.
    rewrite !bind_emit, bind_unfold, collect_outcome. cbv zeta. fold queued in_progress.
    cbn [mergeListings] in Hmerge.
    destruct (mergeListing (listWorkflowRuns octokit queued) TreeMap.empty) as [sorted1 | ];
      [ | discriminate].
    destruct (mergeListing (listWorkflowRuns octokit in_progress) sorted1) as [sorted2 | ];
      [ | discriminate].
    injection Hmerge as ->. cbn [trace completion world].
    rewrite bind_emit. cbn [trace completion world app]. fold loop. rewrite Hc. reflexivity. }
  split; [exact Hrun | ].
  rewrite Hrun. cbn [trace]. exact Hcalls.
Qed.

(** X10: the cancel requests are sent one after the other, each to the
    service as the one before left it: after the loop the service is in
    the state that the requests for the duplicates, in their order,
    lead to.  A record that is skipped does not touch the service. *)
Theorem X10_cancel_requests_are_sequential (octokit : Client) (selfRunId owner : string)
    (repo : option string) (sorted : TreeMap.t Run.t) (w : World) :
  world (cancelLoop octokit selfRunId owner repo sorted w)
  = fold_left (λ w id, snd (cancelWorkflowRun octokit owner repo id w))
              (map Run.id (duplicates sorted selfRunId)) w.
Proof.
  unfold cancelLoop, duplicates, visited.
  generalize (TreeMap.backward sorted) as entries. intros entries. revert w.
  induction entries as [ | entry entries IH]; intros w; [reflexivity | ].
  cbn [forOf]. rewrite bind_unfold.
  destruct (processEntry_spec octokit selfRunId owner repo entry w) as (Hc & _ & _).
  rewrite Hc. cbn [world]. rewrite IH. cbn [map List.filter].
  assert (Hworld : world (processEntry octokit selfRunId owner repo entry w)
                   = if isDuplicate selfRunId (snd entry)
                     then snd (cancelWorkflowRun octokit owner repo (Run.id (snd entry)) w)
                     else w).
  { unfold processEntry, isDuplicate. unfold info. rewrite bind_emit. cbn [world].
    destruct (skipReason selfRunId (snd entry)) as [[ | | ] | ]; try reflexivity.
    rewrite bind_emit. cbn [world].
    unfold cancelRun, tryCatch, bind, emit, info, warning. cbn [trace completion world].
    destruct (cancelWorkflowRun octokit owner repo (Run.id (snd entry)) w) as [[reply | error] w'];
      reflexivity. }
  rewrite Hworld. destruct (isDuplicate selfRunId (snd entry)); reflexivity.
Qed.

(** Without an occurrence of the pattern, [replace] changes nothing. *)
Lemma replace_absent (pat rep s : string) :
  occurs pat s = false → Js.replace pat rep s = s.
Proof.
  induction s as [ | c s IH]; rewrite replace_unfold; cbn [occurs].
  - intros [-> _]%orb_false_iff. reflexivity.
  - intros [-> Hs]%orb_false_iff. by rewrite (IH Hs).
Qed.

(** X16: for a pull_request the branch is [GITHUB_HEAD_REF], with no
    check of a prefix: when the head ref holds no [refs/heads/] it is
    the branch as it stands, and [run] logs it and calls
    [cancelDuplicates] with it. *)
Theorem X16_pull_request_uses_the_head_ref (selfRunId o r headRef : string)
    (env : gmap string string) (w : World) :
  env !! "GITHUB_RUN_ID" = Some selfRunId →
  env !! "GITHUB_REPOSITORY" = Some (o ++ "/" ++ r) →
  noSlash o = true →
  noSlash r = true →
  env !! "GITHUB_EVENT_NAME" = Some "pull_request" →
  env !! "GITHUB_HEAD_REF" = Some headRef →
  occurs "refs/heads/" headRef = false →
  let call := floating (cancelDuplicates env (githubToken env) selfRunId o (Some r) headRef) w in
  run env w =
    {| trace := Info (githubToken env)
                :: Info ("Branch is " ++ headRef ++ ", repo is " ++ r
                         ++ ", and owner is " ++ o ++ ", and id is " ++ selfRunId)
                :: trace call;
       completion := Normal tt; world := world call |}.
Proof.
  intros Hid Hrepo Ho Hr Hevent Href Habsent.
  pose proof (run_calls_cancelDuplicates selfRunId (o ++ "/" ++ r) "pull_request"
                headRef env w Hid Hrepo Hevent eq_refl Href eq_refl) as Hrun.
  cbv zeta in Hrun. rewrite Hrun.
  change ("/" ++ r) with (String "/" r).
  rewrite (split_first o r Ho), (split_noSlash r Hr), (replace_absent _ _ _ Habsent).
  reflexivity.
Qed.

(** The cancel requests in the trace of one pass of the loop body, and
    of the loop. *)
Lemma processEntry_requests (octokit : Client) (selfRunId owner : string)
    (repo : option string) (entry : Z * Run.t) (w : World)
    (o : string) (r : option string) (id : N) :
  In (CancelWorkflowRun o r id) (trace (processEntry octokit selfRunId owner repo entry w))
  ↔ isDuplicate selfRunId (snd entry) = true
    ∧ o = owner ∧ r = repo ∧ id = Run.id (snd entry).
Proof.
  unfold processEntry, isDuplicate, info. rewrite bind_emit. cbn [trace].
  destruct (skipReason selfRunId (snd entry)) as [[ | | ] | ].
  1-3: (cbn [emit trace In]; split; [intros [? | [? | []]]; discriminate | intros [? _]; discriminate]).
  rewrite bind_emit. cbn [trace].
  unfold cancelRun, tryCatch, bind, emit, info, warning. cbn [trace completion world].
  destruct (cancelWorkflowRun octokit owner repo (Run.id (snd entry)) w) as [[reply | error] w'];
    cbn [trace completion world app In].
  - split.
    + intros [? | [? | [[= <- <- <-] | [? | []]]]]; try discriminate. done.
    + intros (_ & -> & -> & ->). right. right. by left.
  - split.
    + intros [? | [? | [[= <- <- <-] | [? | []]]]]; try discriminate. done.
    + intros (_ & -> & -> & ->). right. right. by left.
Qed.

Lemma cancelLoop_requests (octokit : Client) (selfRunId owner : string)
    (repo : option string) (sorted : TreeMap.t Run.t) (w : World)
    (o : string) (r : option string) (id : N) :
  In (CancelWorkflowRun o r id) (trace (cancelLoop octokit selfRunId owner repo sorted w))
  ↔ o = owner ∧ r = repo
    ∧ ∃ element : Run.t, In element (duplicates sorted selfRunId) ∧ Run.id element = id.
Proof.
  unfold cancelLoop, duplicates, visited.
  generalize (TreeMap.backward sorted) as entries. intros entries. revert w.
  induction entries as [ | entry entries IH]; intros w.
  - cbn. split; [done | by intros (_ & _ & ? & [] & _)].
  - cbn [forOf]. rewrite bind_unfold.
    destruct (processEntry_spec octokit selfRunId owner repo entry w) as (Hc & _ & _).
    rewrite Hc. cbn [trace]. rewrite in_app_iff, processEntry_requests, IH.
    cbn [map List.filter]. split.
    + intros [(Hdup & -> & -> & ->) | (-> & -> & element & Hin & <-)].
      * repeat split. exists (snd entry). rewrite Hdup. split; [by left | done].
      * repeat split. exists element. split; [ | done].
        destruct (isDuplicate selfRunId (snd entry)); [by right | done].
    + intros (-> & -> & element & Hin & <-).
      destruct (isDuplicate selfRunId (snd entry)) eqn:Hdup.
      * destruct Hin as [<- | Hin]; [by left | ]. right. repeat split. by exists element.
      * right. repeat split. by exists element.
Qed.

End Program.

Arguments trace {World A} _.
Arguments completion {World A} _.
Arguments world {World A} _.

(** ** The ordered map *)

Section TreeMapFacts.

Context {V : Type}.
Implicit Types (m : TreeMap.t V) (k : Z) (v : V).

Lemma TreeMap_set_elem_of k v m (entry : Z * V) :
  In entry (TreeMap.set k v m) → entry = (k, v) ∨ In entry m.
Proof.
  induction m as [ | [k' v'] m IH]; cbn [TreeMap.set].
  - intros [<- | []]. by left.
  - destruct (Z.ltb_spec k k'); [ | destruct (Z.eqb_spec k k')]; cbn [In].
    + intros [<- | Hin]; [by left | by right].
    + intros [<- | Hin]; [by left | right; by right].
    + intros [<- | Hin]; [right; by left | ].
      destruct (IH Hin) as [-> | Hin']; [by left | right; by right].
Qed.

Lemma TreeMap_set_above k v m (a : Z) :
  a < k → Forall (Z.lt a) (TreeMap.keys m) → Forall (Z.lt a) (TreeMap.keys (TreeMap.set k v m)).
Proof.
  intros Hak Hm. apply List.Forall_forall. intros k0 Hk0.
  apply in_map_iff in Hk0 as ([k1 v1] & <- & Hin).
  apply TreeMap_set_elem_of in Hin as [[= -> ->] | Hin]; [exact Hak | ].
  rewrite List.Forall_forall in Hm. apply Hm. apply in_map_iff. by exists (k1, v1).
Qed.

(** [set] keeps the keys strictly ascending: no key is held twice. *)
Lemma TreeMap_set_wf k v m : TreeMap.wf m → TreeMap.wf (TreeMap.set k v m).
Proof.
  unfold TreeMap.wf. induction m as [ | [k' v'] m IH]; cbn [TreeMap.set TreeMap.keys map fst].
  - intros _. repeat constructor.
  - intros Hwf. apply StronglySorted_inv in Hwf as [Hm Hk'].
    destruct (Z.ltb_spec k k'); [ | destruct (Z.eqb_spec k k')];
      cbn [TreeMap.keys map fst].
    + constructor; [by constructor | ].
      constructor; [done | ]. eapply Forall_impl; [exact Hk' | ]. cbn. lia.
    + subst k'. by constructor.
    + constructor; [by apply IH | ]. apply TreeMap_set_above; [lia | exact Hk'].
Qed.

(** [set] then [get]: the value just stored under its key, the old
    binding under any other. *)
Lemma TreeMap_get_set k v m (k0 : Z) :
  TreeMap.get k0 (TreeMap.set k v m) = if k0 =? k then Some v else TreeMap.get k0 m.
Proof.
  induction m as [ | [k' v'] m IH]; cbn [TreeMap.set TreeMap.get]; [done | ].
  destruct (Z.ltb_spec k k'); [ | destruct (Z.eqb_spec k k')]; cbn [TreeMap.get].
  - done.
  - subst k'. by destruct (k0 =? k).
  - rewrite IH. destruct (Z.eqb_spec k0 k'), (Z.eqb_spec k0 k); try done. lia.
Qed.

End TreeMapFacts.

(** ** Sorted lists *)

Lemma StronglySorted_snoc {A : Type} (R : A → A → Prop) (x : A) (xs : list A) :
  StronglySorted R xs → Forall (λ y, R y x) xs → StronglySorted R (xs ++ [x])%list.
Proof.
  intros Hxs Hx. apply StronglySorted_app. split; [ | split; [exact Hxs | repeat constructor]].
  intros y x' Hy Hx'. apply list_elem_of_singleton in Hx' as ->.
  rewrite Forall_forall in Hx. by apply Hx.
Qed.

Lemma StronglySorted_rev {A : Type} (R : A → A → Prop) (xs : list A) :
  StronglySorted R xs → StronglySorted (λ a b, R b a) (rev xs).
Proof.
  induction 1 as [ | x xs Hxs IH Hx]; cbn [rev]; [constructor | ].
  apply StronglySorted_snoc; [exact IH | ].
  apply List.Forall_forall. intros y Hy. rewrite List.Forall_forall in Hx.
  apply Hx. by apply in_rev.
Qed.

Lemma StronglySorted_filter {A : Type} (R : A → A → Prop) (f : A → bool) (xs : list A) :
  StronglySorted R xs → StronglySorted R (List.filter f xs).
Proof.
  induction 1 as [ | x xs Hxs IH Hx]; cbn [List.filter]; [constructor | ].
  destruct (f x); [ | exact IH]. constructor; [exact IH | ].
  apply List.Forall_forall. intros y Hy. apply filter_In in Hy as [Hy _].
  rewrite List.Forall_forall in Hx. by apply Hx.
Qed.

(** ** The Collector *)

Lemma setAll_app (els1 els2 : list Run.t) (sorted : TreeMap.t Run.t) :
  setAll (els1 ++ els2) sorted = setAll els2 (setAll els1 sorted).
Proof. apply fold_left_app. Qed.

Lemma setAll_wf (els : list Run.t) (sorted : TreeMap.t Run.t) :
  TreeMap.wf sorted → TreeMap.wf (setAll els sorted).
Proof.
  revert sorted. induction els as [ | element els IH]; intros sorted Hwf; [exact Hwf | ].
  cbn [setAll fold_left]. apply IH, TreeMap_set_wf, Hwf.
Qed.

Lemma setAll_keyed (els : list Run.t) (sorted : TreeMap.t Run.t) :
  keyed sorted → keyed (setAll els sorted).
Proof.
  revert sorted. induction els as [ | element els IH]; intros sorted Hkeyed; [exact Hkeyed | ].
  cbn [setAll fold_left]. apply IH. unfold keyed in *.
  apply List.Forall_forall. intros entry Hin.
  apply TreeMap_set_elem_of in Hin as [-> | Hin]; [reflexivity | ].
  rewrite List.Forall_forall in Hkeyed. by apply Hkeyed.
Qed.

(** After [setAll], a run number holds the last of the elements that
    carry it, and its old binding if none does. *)
Lemma setAll_get (els : list Run.t) (sorted : TreeMap.t Run.t) (k : Z) :
  TreeMap.get k (setAll els sorted) =
    match last (List.filter (λ element, Run.run_number element =? k) els) with
    | Some element => Some element
    | None => TreeMap.get k sorted
    end.
Proof.
  revert sorted. induction els as [ | element els IH]; intros sorted; [reflexivity | ].
  cbn [setAll fold_left List.filter]. fold (setAll els). rewrite IH, TreeMap_get_set.
  rewrite (Z.eqb_sym k). destruct (Run.run_number element =? k); [ | reflexivity].
  rewrite last_cons. by destruct (last _).
Qed.

Lemma mergeListing_listingOf (pages : list PageData) (sorted : TreeMap.t Run.t) :
  mergeListing (listingOf pages) sorted = Normal (setAll (flat_map elements pages) sorted).
Proof.
  revert sorted. induction pages as [ | data pages IH]; intros sorted; [reflexivity | ].
  cbn [listingOf fold_right mergeListing flat_map]. fold (listingOf pages).
  rewrite IH, setAll_app. reflexivity.
Qed.

(** Whatever the listings yield, the Collector keeps its invariants. *)
Lemma mergeListing_invariant (listing : Listing) (sorted sorted' : TreeMap.t Run.t) :
  mergeListing listing sorted = Normal sorted' →
  TreeMap.wf sorted ∧ keyed sorted → TreeMap.wf sorted' ∧ keyed sorted'.
Proof.
  revert sorted. induction listing as [ | data rest IH | error]; intros sorted; cbn [mergeListing].
  - by intros [= ->].
  - intros Hrest [Hwf Hkeyed]. apply (IH _ Hrest). split.
    + by apply setAll_wf.
    + by apply setAll_keyed.
  - discriminate.
Qed.

Lemma mergeListings_invariant (listings : list Listing) (sorted sorted' : TreeMap.t Run.t) :
  mergeListings listings sorted = Normal sorted' →
  TreeMap.wf sorted ∧ keyed sorted → TreeMap.wf sorted' ∧ keyed sorted'.
Proof.
  revert sorted. induction listings as [ | listing listings IH]; intros sorted; cbn [mergeListings].
  - by intros [= ->].
  - destruct (mergeListing listing sorted) as [sorted1 | error] eqn:Hlisting; [ | discriminate].
    intros Hrest Hinv. apply (IH _ Hrest). by apply (mergeListing_invariant _ _ _ Hlisting).
Qed.

Lemma empty_invariant : TreeMap.wf (@TreeMap.empty Run.t) ∧ keyed TreeMap.empty.
Proof. split; constructor. Qed.

Lemma keyed_ascending (sorted : TreeMap.t Run.t) :
  TreeMap.wf sorted → keyed sorted →
  StronglySorted (λ a b, Run.run_number (snd a) < Run.run_number (snd b)) sorted.
Proof.
  unfold TreeMap.wf, keyed.
  induction sorted as [ | [k element] sorted IH]; cbn [TreeMap.keys map fst]; [constructor | ].
  intros Hwf Hkeyed.
  apply StronglySorted_inv in Hwf as [Hwf Hk].
  apply List.Forall_cons_iff in Hkeyed as [Hk0 Hkeyed]. cbn [fst snd] in Hk0.
  constructor; [by apply IH | ].
  apply List.Forall_forall. intros entry Hin. cbn [snd].
  rewrite List.Forall_forall in Hkeyed, Hk.
  rewrite Hk0, (Hkeyed entry Hin). apply Hk. by apply in_map.
Qed.

(** The order of the visit, from the invariants. *)
Lemma visited_descending (sorted : TreeMap.t Run.t) :
  TreeMap.wf sorted → keyed sorted → descending (visited sorted).
Proof.
  intros Hwf Hkeyed. unfold descending, visited, TreeMap.backward.
  apply (StronglySorted_fmap snd
           (λ a b, Run.run_number (snd b) < Run.run_number (snd a))); [done | ].
  apply (StronglySorted_rev (λ a b, Run.run_number (snd a) < Run.run_number (snd b))).
  by apply keyed_ascending.
Qed.

Lemma duplicates_descending (sorted : TreeMap.t Run.t) (selfRunId : string) :
  TreeMap.wf sorted → keyed sorted → descending (duplicates sorted selfRunId).
Proof.
  intros Hwf Hkeyed. apply StronglySorted_filter. by apply visited_descending.
Qed.

(** ** The scenarios of the specification *)

Example scenario_A :
  duplicates (setAll [Sample.run10; Sample.run11] TreeMap.empty) "102"
  = [Sample.run11; Sample.run10].
Proof. reflexivity. Qed.

Example scenario_B : duplicates (setAll [Sample.run9] TreeMap.empty) "95" = [].
Proof. reflexivity. Qed.

Example scenario_C : duplicates (setAll [Sample.run8] TreeMap.empty) "85" = [].
Proof. reflexivity. Qed.

Example scenario_D : duplicates (setAll [Sample.run20] TreeMap.empty) "50" = [].
Proof. reflexivity. Qed.

(** Scenario E: the first cancel request fails, the second succeeds. *)
Example scenario_E :
  cancelLoop Sample.cancelWorkflowRun Sample.octokit "102" "octo" (Some "demo")
    (setAll [Sample.run10; Sample.run11] TreeMap.empty) []
  = {| trace :=
         [Info ("Processing run ID: 101 [push : " ++ Sample.url ++ " : in_progress : 11]");
          Info "Cancelling run ID: 101";
          CancelWorkflowRun "octo" (Some "demo") 101;
          Warning "Could not cancel run (id 101): [409] Cannot cancel a workflow run that is completed";
          Info ("Processing run ID: 100 [push : " ++ Sample.url ++ " : queued : 10]");
          Info "Cancelling run ID: 100";
          CancelWorkflowRun "octo" (Some "demo") 100;
          Info "Previous run (id 100) cancelled, status = 202"];
       completion := Normal tt;
       world := [100%N] |}.
Proof. reflexivity. Qed.

(** A whole invocation on scenario A: lookup, two listings, two cancel
    requests, the first of them refused. *)
Example run_on_scenario_A :
  run Sample.getInput Sample.parseInt Sample.GitHub Sample.getWorkflowRun
      Sample.listWorkflowRuns Sample.cancelWorkflowRun
      (Sample.env "102" "push" "refs/heads/main" "") []
  = {| trace :=
         [Info "token";
          Info "Branch is main, repo is demo, and owner is octo, and id is 102";
          GetWorkflowRun "octo" (Some "demo") (Some 102);
          Info "Workflow ID is: 42";
          ListWorkflowRuns (createRunsQuery "octo" (Some "demo") "42" "queued" "main");
          ListWorkflowRuns (createRunsQuery "octo" (Some "demo") "42" "in_progress" "main");
          Info "Found queued/in_progress workflows: 2";
          Info ("Processing run ID: 101 [push : " ++ Sample.url ++ " : in_progress : 11]");
          Info "Cancelling run ID: 101";
          CancelWorkflowRun "octo" (Some "demo") 101;
          Warning "Could not cancel run (id 101): [409] Cannot cancel a workflow run that is completed";
          Info ("Processing run ID: 100 [push : " ++ Sample.url ++ " : queued : 10]");
          Info "Cancelling run ID: 100";
          CancelWorkflowRun "octo" (Some "demo") 100;
          Info "Previous run (id 100) cancelled, status = 202"];
       completion := Normal tt;
       world := [100%N] |}.
Proof. vm_compute. reflexivity. Qed.

(** An error thrown by [run] itself does reach the handler of line 168:
    here [GITHUB_REF] is undefined, and a ref is neither branch nor tag. *)
Example run_reports_its_own_errors :
  run Sample.getInput Sample.parseInt Sample.GitHub Sample.getWorkflowRun
      Sample.listWorkflowRuns Sample.cancelWorkflowRun
      (delete "GITHUB_REF" (Sample.env "102" "push" "" "")) []
  = {| trace := [Info "token"; SetFailed "GITHUB_REF was not defined."];
       completion := Normal tt; world := [] |}
  ∧ run Sample.getInput Sample.parseInt Sample.GitHub Sample.getWorkflowRun
        Sample.listWorkflowRuns Sample.cancelWorkflowRun
        (Sample.env "102" "push" "refs/pull/7/merge" "") []
    = {| trace := [Info "token";
                   SetFailed "refs/pull/7/merge was not an expected branch ref (refs/heads/)."];
         completion := Normal tt; world := [] |}.
Proof. split; vm_compute; reflexivity. Qed.

(** Without the input [github-token] the token is empty, this client
    cannot be built, and the invocation ends before any request. *)
Example run_without_token :
  run Sample.getInput Sample.parseInt Sample.GitHub Sample.getWorkflowRun
      Sample.listWorkflowRuns Sample.cancelWorkflowRun
      (delete "INPUT_GITHUB-TOKEN" (Sample.env "102" "push" "refs/heads/main" "")) []
  = {| trace :=
         [Info "";
          Info "Branch is main, repo is demo, and owner is octo, and id is 102";
          UnhandledRejection (JsError.Error "Parameter token or opts.auth is required")];
       completion := Normal tt;
       world := [] |}.
Proof. vm_compute. reflexivity. Qed.

(** ** Claims about the Duplicate Policy and the Collector *)

(** C1, at the input where it fails: the run identifiers are compared as
    strings.  With the current run 9999999999, the newer run 10000000000
    is not skipped ("1" sorts before "9"): it is a duplicate, and the loop
    sends a cancel request for it. *)
Theorem C1_newer_run_is_cancelled :
  let sorted := setAll [Sample.runNewer] TreeMap.empty in
  (9999999999 < Run.id Sample.runNewer)%N
  ∧ Js.showN 9999999999 = "9999999999"
  ∧ Js.ge (Js.showN (Run.id Sample.runNewer)) "9999999999" = false
  ∧ duplicates sorted "9999999999" = [Sample.runNewer]
  ∧ cancelCalls
      (trace (cancelLoop Sample.cancelAnything Sample.octokit "9999999999" "octo" (Some "demo")
                sorted 0%nat))
    = [10000000000%N].
Proof. vm_compute. repeat split; reflexivity. Qed.

(** What the first skip rule does exclude: the records whose identifier,
    as a string, is not below the current one. *)
Lemma duplicates_below_as_strings (sorted : TreeMap.t Run.t) (selfRunId : string) :
  Forall (λ element, String.ltb (Js.showN (Run.id element)) selfRunId = true)
         (duplicates sorted selfRunId).
Proof.
  apply List.Forall_forall. intros element Hin.
  apply filter_In in Hin as [_ Hdup]. unfold isDuplicate, skipReason, Js.ge in Hdup.
  destruct (String.ltb _ selfRunId); [reflexivity | discriminate].
Qed.

(** C5: no record that is handed to [cancelRun] has the status
    [completed], and each one was started by a push or a pull_request. *)
Theorem C5_no_completed_no_other_event (sorted : TreeMap.t Run.t) (selfRunId : string) :
  Forall (λ element,
            Run.status element ≠ "completed"
            ∧ (Run.event element = "push" ∨ Run.event element = "pull_request"))
         (duplicates sorted selfRunId).
Proof.
  apply List.Forall_forall. intros element Hin.
  apply filter_In in Hin as [_ Hdup]. unfold isDuplicate, skipReason in Hdup.
  destruct (Js.ge _ selfRunId); [discriminate | ].
  destruct (String.eqb_spec "completed" (Run.status element)) as [ | Hstatus]; [discriminate | ].
  unfold Js.includes in Hdup. cbn [existsb] in Hdup.
  destruct (String.eqb_spec (Run.event element) "push") as [Hpush | _].
  { split; [congruence | by left]. }
  destruct (String.eqb_spec (Run.event element) "pull_request") as [Hpr | _].
  { split; [congruence | by right]. }
  discriminate.
Qed.

(** C6: the Collected Set holds each run number once, the loop visits its
    records from the largest run number down, and the records it hands to
    [cancelRun] are strictly descending by run number. *)
Theorem C6_descending_by_run_number (listings : list Listing) (sorted : TreeMap.t Run.t)
    (selfRunId : string) :
  mergeListings listings TreeMap.empty = Normal sorted →
  TreeMap.wf sorted
  ∧ map Run.run_number (visited sorted) = rev (TreeMap.keys sorted)
  ∧ descending (visited sorted)
  ∧ descending (duplicates sorted selfRunId).
Proof.
  intros Hmerge.
  destruct (mergeListings_invariant _ _ _ Hmerge empty_invariant) as [Hwf Hkeyed].
  split; [exact Hwf | split; [ | split]].
  - unfold visited, TreeMap.backward, TreeMap.keys. rewrite map_map, map_rev. f_equal.
    apply map_ext_Forall. exact Hkeyed.
  - by apply visited_descending.
  - by apply duplicates_descending.
Qed.

(** C7: whatever shape each page arrives in, the Collector asks for the
    queued and for the in-progress runs and ends with one set that
    holds, under every run number, the last record that any page of
    either status returned for that number (and nothing under a run
    number that no page returned). *)
Theorem C7_pages_are_merged_by_run_number {World Client : Type}
    (listWorkflowRuns : Client → RunsQuery → Listing) (octokit : Client)
    (owner : string) (repo : option string) (workflowId branch : string)
    (queued in_progress : list (option Z * list Run.t)) (w : World) :
  let listing pages := listingOf (map (λ page, pageOf (fst page) (snd page)) pages) in
  let runs := flat_map snd (queued ++ in_progress) in
  let queuedRuns := createRunsQuery owner repo workflowId "queued" branch in
  let inProgressRuns := createRunsQuery owner repo workflowId "in_progress" branch in
  listWorkflowRuns octokit queuedRuns = listing queued →
  listWorkflowRuns octokit inProgressRuns = listing in_progress →
  ∃ sorted : TreeMap.t Run.t,
    collect listWorkflowRuns octokit owner repo workflowId branch w =
      {| trace := [ListWorkflowRuns queuedRuns; ListWorkflowRuns inProgressRuns];
         completion := Normal sorted; world := w |}
    ∧ TreeMap.wf sorted
    ∧ ∀ k : Z,
        TreeMap.get k sorted
        = last (List.filter (λ element, Run.run_number element =? k) runs).
Proof.
  cbv zeta. intros Hqueued Hin_progress.
  rewrite collect_outcome. cbv zeta. rewrite Hqueued, Hin_progress.
  rewrite !mergeListing_listingOf.
  assert (Helements : ∀ pages : list (option Z * list Run.t),
             flat_map elements (map (λ page, pageOf (fst page) (snd page)) pages)
             = flat_map snd pages).
  { induction pages as [ | [[total_count | ] runs] pages IH]; cbn; [done | by rewrite IH ..]. }
  rewrite !Helements, <- setAll_app, <- flat_map_app.
  eexists. split; [reflexivity | split].
  - apply setAll_wf. constructor.
  - intros k. rewrite setAll_get. by destruct (last _).
Qed.

(** C8: the records handed to [cancelRun] are a function of the Collected
    Set and of the current run identifier alone.  Two passes of the loop
    over the same set, against any two services in any two states (also
    the second pass in the state the first one left), send the same cancel
    requests in the same order and complete normally; on the empty set the
    loop does nothing at all. *)
Theorem C8_same_input_same_output {World1 World2 Client1 Client2 : Type}
    (cancel1 : Client1 → string → option string → N → World1 → Completion Z * World1)
    (cancel2 : Client2 → string → option string → N → World2 → Completion Z * World2)
    (octokit1 : Client1) (octokit2 : Client2) (selfRunId owner : string) (repo : option string)
    (sorted : TreeMap.t Run.t) (w1 : World1) (w2 : World2) :
  let r1 := cancelLoop cancel1 octokit1 selfRunId owner repo sorted w1 in
  let r2 := cancelLoop cancel2 octokit2 selfRunId owner repo sorted w2 in
  let again := cancelLoop cancel1 octokit1 selfRunId owner repo sorted (world r1) in
  cancelCalls (trace r1) = map Run.id (duplicates sorted selfRunId)
  ∧ cancelCalls (trace r2) = cancelCalls (trace r1)
  ∧ cancelCalls (trace again) = cancelCalls (trace r1)
  ∧ completion r1 = Normal tt
  ∧ completion r2 = Normal tt
  ∧ completion again = Normal tt
  ∧ duplicates TreeMap.empty selfRunId = []
  ∧ cancelLoop cancel1 octokit1 selfRunId owner repo TreeMap.empty w1
    = {| trace := []; completion := Normal tt; world := w1 |}.
Proof.
  cbv zeta.
  destruct (cancelLoop_spec cancel1 octokit1 selfRunId owner repo sorted w1) as (Hc1 & Hcalls1 & _).
  destruct (cancelLoop_spec cancel2 octokit2 selfRunId owner repo sorted w2) as (Hc2 & Hcalls2 & _).
  destruct (cancelLoop_spec cancel1 octokit1 selfRunId owner repo sorted
              (world (cancelLoop cancel1 octokit1 selfRunId owner repo sorted w1)))
    as (Hc3 & Hcalls3 & _).
  rewrite Hcalls1, Hcalls2, Hcalls3. repeat split; assumption.
Qed.

(** C2, at the inputs where it fails.  [run] calls [cancelDuplicates]
    without awaiting it.  When the lookup names no workflow, and when the
    listing breaks on its second page, the operation stops before any
    cancel request, but the error is an unhandled rejection:
    [core.setFailed] is not called. *)
Theorem C2_fatal_condition_is_not_reported :
  let env := Sample.env "102" "push" "refs/heads/main" "" in
  run Sample.getInput Sample.parseInt Sample.GitHub Sample.getWorkflowRunNoWorkflow
      Sample.listWorkflowRuns Sample.cancelWorkflowRun env []
  = {| trace :=
         [Info "token";
          Info "Branch is main, repo is demo, and owner is octo, and id is 102";
          GetWorkflowRun "octo" (Some "demo") (Some 102);
          UnhandledRejection (JsError.Error "Could not resolve workflow")];
       completion := Normal tt;
       world := [] |}
  ∧ run Sample.getInput Sample.parseInt Sample.GitHub Sample.getWorkflowRun
        Sample.listWorkflowRunsBroken Sample.cancelWorkflowRun env []
    = {| trace :=
           [Info "token";
            Info "Branch is main, repo is demo, and owner is octo, and id is 102";
            GetWorkflowRun "octo" (Some "demo") (Some 102);
            Info "Workflow ID is: 42";
            ListWorkflowRuns (createRunsQuery "octo" (Some "demo") "42" "queued" "main");
            UnhandledRejection (JsError.mk (Some 502) "Bad Gateway")];
         completion := Normal tt;
         world := [] |}.
Proof. split; vm_compute; reflexivity. Qed.

(** C3 fails for a pull_request: with a head ref that begins with
    [refs/tags/] the operation is not skipped.  The lookup, both listings
    and the cancel requests go out, for the branch [refs/tags/v1]. *)
Lemma C3_pull_request_with_tag_ref_is_not_skipped :
  let env := Sample.env "102" "pull_request" "refs/tags/v1" "refs/tags/v1" in
  env !! "GITHUB_EVENT_NAME" = Some "pull_request"
  ∧ env !! "GITHUB_REF" = Some "refs/tags/v1"
  ∧ env !! "GITHUB_HEAD_REF" = Some "refs/tags/v1"
  ∧ Js.startsWith "refs/tags/v1" "refs/tags/" = true
  ∧ List.filter isRequest
      (trace (run Sample.getInput Sample.parseInt Sample.GitHub Sample.getWorkflowRun
                  Sample.listWorkflowRuns Sample.cancelWorkflowRun env []))
    = [GetWorkflowRun "octo" (Some "demo") (Some 102);
       ListWorkflowRuns (createRunsQuery "octo" (Some "demo") "42" "queued" "refs/tags/v1");
       ListWorkflowRuns (createRunsQuery "octo" (Some "demo") "42" "in_progress" "refs/tags/v1");
       CancelWorkflowRun "octo" (Some "demo") 101;
       CancelWorkflowRun "octo" (Some "demo") 100].
Proof. vm_compute. repeat split; reflexivity. Qed.

(** ** The theorems at concrete invocations *)

Lemma C3_skipped_on_schedule_and_on_tag_push :
  let call :=
    floating (cancelDuplicates Sample.parseInt Sample.GitHub Sample.getWorkflowRun
                Sample.listWorkflowRuns Sample.cancelWorkflowRun
                (Sample.env "102" "pull_request" "refs/pull/7/merge" "refs/tags/v1")
                "token" "102" "octo" (Some "demo") "refs/tags/v1") [] in
  run Sample.getInput Sample.parseInt Sample.GitHub Sample.getWorkflowRun
      Sample.listWorkflowRuns Sample.cancelWorkflowRun
      (Sample.env "102" "schedule" "refs/heads/main" "") []
  = {| trace := [Info "token"; Info "Skipping unsupported event: schedule"];
       completion := Normal tt; world := [] |}
  ∧ run Sample.getInput Sample.parseInt Sample.GitHub Sample.getWorkflowRun
        Sample.listWorkflowRuns Sample.cancelWorkflowRun
        (Sample.env "102" "push" "refs/tags/v1" "") []
    = {| trace := [Info "token"; Info "Skipping tag build: refs/tags/v1"];
         completion := Normal tt; world := [] |}
  ∧ run Sample.getInput Sample.parseInt Sample.GitHub Sample.getWorkflowRun
        Sample.listWorkflowRuns Sample.cancelWorkflowRun
        (Sample.env "102" "pull_request" "refs/pull/7/merge" "refs/tags/v1") []
    = {| trace := Info "token"
                  :: Info "Branch is refs/tags/v1, repo is demo, and owner is octo, and id is 102"
                  :: trace call;
         completion := Normal tt; world := world call |}.
Proof.
  cbv zeta. split; [ | split].
  - apply (C3_tag_push_and_other_events_are_skipped
             Sample.getInput Sample.parseInt Sample.GitHub Sample.getWorkflowRun
             Sample.listWorkflowRuns Sample.cancelWorkflowRun
             "102" "octo/demo" "schedule");
      vm_compute; reflexivity.
  - apply (C3_tag_push_and_other_events_are_skipped
             Sample.getInput Sample.parseInt Sample.GitHub Sample.getWorkflowRun
             Sample.listWorkflowRuns Sample.cancelWorkflowRun
             "102" "octo/demo" "push");
      vm_compute; reflexivity.
  - refine (proj2 (proj2 (C3_tag_push_and_other_events_are_skipped
             Sample.getInput Sample.parseInt Sample.GitHub Sample.getWorkflowRun
             Sample.listWorkflowRuns Sample.cancelWorkflowRun
             "102" "octo/demo" "pull_request"
             (Sample.env "102" "pull_request" "refs/pull/7/merge" "refs/tags/v1") []
             _ _ _)) "refs/tags/v1" _ _);
      vm_compute; reflexivity.
Defined.

Lemma C6_on_scenario_A :
  let sorted := setAll [Sample.run10; Sample.run11] TreeMap.empty in
  TreeMap.wf sorted
  ∧ map Run.run_number (visited sorted) = rev (TreeMap.keys sorted)
  ∧ descending (visited sorted)
  ∧ descending (duplicates sorted "102").
Proof.
  apply (C6_descending_by_run_number
           [Sample.listWorkflowRuns Sample.octokit
              (createRunsQuery "octo" (Some "demo") "42" "queued" "main");
            Sample.listWorkflowRuns Sample.octokit
              (createRunsQuery "octo" (Some "demo") "42" "in_progress" "main")]).
  reflexivity.
Defined.

Lemma C7_on_scenario_A :
  ∃ sorted : TreeMap.t Run.t,
    collect Sample.listWorkflowRuns Sample.octokit "octo" (Some "demo") "42" "main" 0%nat
    = {| trace := [ListWorkflowRuns (createRunsQuery "octo" (Some "demo") "42" "queued" "main");
                   ListWorkflowRuns
                     (createRunsQuery "octo" (Some "demo") "42" "in_progress" "main")];
         completion := Normal sorted; world := 0%nat |}
    ∧ TreeMap.wf sorted
    ∧ ∀ k : Z,
        TreeMap.get k sorted
        = last (List.filter (λ element, Run.run_number element =? k)
                  [Sample.run10; Sample.run11]).
Proof.
  apply (C7_pages_are_merged_by_run_number Sample.listWorkflowRuns Sample.octokit
           "octo" (Some "demo") "42" "main"
           [(None, [Sample.run10])] [(Some 1, [Sample.run11])] 0%nat);
    reflexivity.
Defined.

Lemma C9_two_tokens_two_logs :
  let env := Sample.env "102" "push" "refs/heads/main" "" in
  trace (run Sample.getInput Sample.parseInt Sample.GitHub Sample.getWorkflowRun
             Sample.listWorkflowRuns Sample.cancelWorkflowRun
             (<["INPUT_GITHUB-TOKEN" := "ghs_first"]> env) [])
  ≠ trace (run Sample.getInput Sample.parseInt Sample.GitHub Sample.getWorkflowRun
               Sample.listWorkflowRuns Sample.cancelWorkflowRun
               (<["INPUT_GITHUB-TOKEN" := "ghs_second"]> env) []).
Proof.
  cbv zeta.
  apply (C9_token_is_logged
           Sample.getInput Sample.parseInt Sample.GitHub Sample.getWorkflowRun
           Sample.listWorkflowRuns Sample.cancelWorkflowRun).
  vm_compute. discriminate.
Defined.

Lemma C10_on_empty_values :
  run Sample.getInput Sample.parseInt Sample.GitHub Sample.getWorkflowRun
      Sample.listWorkflowRuns Sample.cancelWorkflowRun
      (Sample.emptyEnv "" "refs/heads/main") []
  = {| trace := [Info "token"; Info "Skipping unsupported event: "];
       completion := Normal tt; world := [] |}
  ∧ existsb isSetFailed
      (trace (run Sample.getInput Sample.parseInt Sample.GitHub Sample.getWorkflowRun
                  Sample.listWorkflowRuns Sample.cancelWorkflowRun
                  (Sample.emptyEnv "push" "refs/heads/main") [])) = false
  ∧ ∃ rest : list Event,
      trace (run Sample.getInput Sample.parseInt Sample.GitHub Sample.getWorkflowRun
                 Sample.listWorkflowRuns Sample.cancelWorkflowRun
                 (Sample.emptyEnv "push" "refs/heads/main") [])
      = Info "token"
        :: Info "Branch is main, repo is undefined, and owner is , and id is "
        :: GetWorkflowRun "" None (Sample.parseInt "")
        :: rest.
Proof.
  split; [ | split].
  - apply (C10_empty_variables_are_accepted
             Sample.getInput Sample.parseInt Sample.GitHub Sample.getWorkflowRun
             Sample.listWorkflowRuns Sample.cancelWorkflowRun
             "refs/heads/main" (Sample.emptyEnv "" "refs/heads/main") []);
      vm_compute; reflexivity.
  - apply (C10_empty_variables_are_accepted
             Sample.getInput Sample.parseInt Sample.GitHub Sample.getWorkflowRun
             Sample.listWorkflowRuns Sample.cancelWorkflowRun
             "refs/heads/main" (Sample.emptyEnv "push" "refs/heads/main") []);
      vm_compute; reflexivity.
  - refine (proj2 (proj2 (proj2 (proj2 (proj2 (C10_empty_variables_are_accepted
             Sample.getInput Sample.parseInt Sample.GitHub Sample.getWorkflowRun
             Sample.listWorkflowRuns Sample.cancelWorkflowRun
             "refs/heads/main" (Sample.emptyEnv "push" "refs/heads/main") [])))
             _ _ _ _ _)) Sample.octokit _);
      vm_compute; reflexivity.
Defined.

(** ** Further properties of the Collector and of the skip rules *)

Section TreeMapLookup.

Context {V : Type}.
Implicit Types (m : TreeMap.t V) (k : Z) (v : V).

Lemma TreeMap_get_In k v m : TreeMap.get k m = Some v → In (k, v) m.
Proof.
  induction m as [ | [k' v'] m IH]; cbn [TreeMap.get In]; [discriminate | ].
  destruct (Z.eqb_spec k k') as [-> | _]; [intros [= ->]; by left | right; by apply IH].
Qed.

Lemma TreeMap_get_below k m (a : Z) :
  Forall (Z.lt a) (TreeMap.keys m) → k <= a → TreeMap.get k m = None.
Proof.
  induction m as [ | [k' v'] m IH]; cbn [TreeMap.get TreeMap.keys map fst]; [done | ].
  intros [Hk' Hm]%List.Forall_cons_iff Hle.
  destruct (Z.eqb_spec k k'); [lia | by apply IH].
Qed.

Lemma TreeMap_In_get k v m : TreeMap.wf m → In (k, v) m → TreeMap.get k m = Some v.
Proof.
  unfold TreeMap.wf.
  induction m as [ | [k' v'] m IH]; cbn [TreeMap.get TreeMap.keys map fst In]; [done | ].
  intros [Hm Hk']%StronglySorted_inv [[= -> ->] | Hin].
  - by rewrite Z.eqb_refl.
  - rewrite List.Forall_forall in Hk'.
    assert (k' < k) by (apply Hk'; apply in_map_iff; by exists (k, v)).
    destruct (Z.eqb_spec k k'); [lia | by apply IH].
Qed.

Lemma TreeMap_keys_get k m : In k (TreeMap.keys m) ↔ is_Some (TreeMap.get k m).
Proof.
  induction m as [ | [k' v'] m IH]; cbn [TreeMap.get TreeMap.keys map fst In].
  - split; [done | by intros [? ?]].
  - destruct (Z.eqb_spec k k') as [-> | Hne].
    + split; [by eexists | by left].
    + rewrite <- IH. split; [intros [? | ?]; [congruence | done] | by right].
Qed.

(** Two ordered maps with the same lookups are the same map. *)
Lemma TreeMap_ext m1 m2 :
  TreeMap.wf m1 → TreeMap.wf m2 →
  (∀ k, TreeMap.get k m1 = TreeMap.get k m2) → m1 = m2.
Proof.
  unfold TreeMap.wf. revert m2.
  induction m1 as [ | [k1 v1] m1 IH]; intros [ | [k2 v2] m2];
    cbn [TreeMap.keys map fst]; intros Hwf1 Hwf2 Hget.
  - reflexivity.
  - specialize (Hget k2). cbn [TreeMap.get] in Hget. by rewrite Z.eqb_refl in Hget.
  - specialize (Hget k1). cbn [TreeMap.get] in Hget. by rewrite Z.eqb_refl in Hget.
  - apply StronglySorted_inv in Hwf1 as [Hwf1 Hk1].
    apply StronglySorted_inv in Hwf2 as [Hwf2 Hk2].
    assert (Hk : k1 = k2).
    { pose proof (Hget k1) as H1. pose proof (Hget k2) as H2.
      cbn [TreeMap.get] in H1, H2. rewrite Z.eqb_refl in H1, H2.
      destruct (Z.eqb_spec k1 k2) as [ | Hne]; [done | ].
      destruct (Z.eqb_spec k2 k1) as [ | _]; [done | ].
      destruct (Z.lt_ge_cases k1 k2).
      - rewrite (TreeMap_get_below k1 m2 k2) in H1; [done | done | lia].
      - rewrite (TreeMap_get_below k2 m1 k1) in H2; [done | done | lia]. }
    subst k2.
    assert (Hv : v1 = v2).
    { specialize (Hget k1). cbn [TreeMap.get] in Hget. rewrite Z.eqb_refl in Hget. congruence. }
    subst v2. f_equal. apply IH; [done | done | ].
    intros k. specialize (Hget k). cbn [TreeMap.get] in Hget.
    destruct (Z.eqb_spec k k1) as [Hkk | _]; [ | done].
    rewrite (TreeMap_get_below k m1 k1), (TreeMap_get_below k m2 k1); [done | done | lia | done | lia].
Qed.

End TreeMapLookup.

Lemma wf_keys_NoDup {V : Type} (m : TreeMap.t V) : TreeMap.wf m → NoDup (TreeMap.keys m).
Proof.
  unfold TreeMap.wf. generalize (TreeMap.keys m) as ks.
  induction 1 as [ | k ks Hks IH Hk]; constructor; [ | exact IH].
  rewrite List.Forall_forall in Hk. intros Hin%list_elem_of_In. specialize (Hk k Hin). lia.
Qed.

Lemma visited_In (sorted : TreeMap.t Run.t) (element : Run.t) :
  In element (visited sorted) ↔ ∃ k : Z, In (k, element) sorted.
Proof.
  unfold visited, TreeMap.backward. rewrite in_map_iff. split.
  - intros ([k e] & <- & Hin). rewrite <- in_rev in Hin. by exists k.
  - intros [k Hin]. exists (k, element). split; [done | by rewrite <- in_rev].
Qed.

(** In a set that satisfies the invariants, the records visited are the
    values found under their own run numbers. *)
Lemma visited_get (sorted : TreeMap.t Run.t) (element : Run.t) :
  TreeMap.wf sorted → keyed sorted →
  In element (visited sorted)
  ↔ TreeMap.get (Run.run_number element) sorted = Some element.
Proof.
  intros Hwf Hkeyed. rewrite visited_In. split.
  - intros [k Hin]. unfold keyed in Hkeyed. rewrite List.Forall_forall in Hkeyed.
    pose proof (Hkeyed _ Hin) as Hk. cbn [fst snd] in Hk. subst k. by apply TreeMap_In_get.
  - intros Hget. exists (Run.run_number element). by apply TreeMap_get_In.
Qed.

Lemma isDuplicate_eligible (selfRunId : string) (element : Run.t) :
  isDuplicate selfRunId element = true ↔ eligible selfRunId element.
Proof.
  unfold isDuplicate, skipReason, eligible, Js.ge, Js.includes. cbn [existsb].
  destruct (String.ltb _ selfRunId); cbn [negb].
  2:{ split; [discriminate | by intros [? _]]. }
  destruct (String.eqb_spec "completed" (Run.status element)) as [Hstatus | Hstatus].
  { split; [discriminate | intros (_ & Hne & _); congruence]. }
  destruct (String.eqb_spec (Run.event element) "push") as [Hpush | Hpush]; cbn [orb negb].
  { split; [intros _; repeat split; [congruence | by left] | done]. }
  destruct (String.eqb_spec (Run.event element) "pull_request") as [Hpr | Hpr]; cbn [orb negb].
  { split; [intros _; repeat split; [congruence | by right] | done]. }
  split; [discriminate | intros (_ & _ & [? | ?]); congruence].
Qed.

(** X11: the loop misses nothing and adds nothing.  Its trace holds a
    cancel request for a run identifier exactly when the request is
    for the owner and repository of the invocation and the Collected Set
    holds a record with that identifier to which none of the three skip
    rules applies: identifier below the current one as a string, status
    other than [completed], event push or pull_request. *)
Theorem X11_cancel_requests_are_for_the_eligible_records {World Client : Type}
    (cancelWorkflowRun : Client → string → option string → N → World → Completion Z * World)
    (octokit : Client) (selfRunId owner : string) (repo : option string)
    (sorted : TreeMap.t Run.t) (w : World) (o : string) (r : option string) (id : N) :
  In (CancelWorkflowRun o r id)
     (trace (cancelLoop cancelWorkflowRun octokit selfRunId owner repo sorted w))
  ↔ o = owner ∧ r = repo
    ∧ ∃ element : Run.t,
        In element (visited sorted) ∧ eligible selfRunId element ∧ Run.id element = id.
Proof.
  rewrite cancelLoop_requests. unfold duplicates. split.
  - intros (-> & -> & element & [Hin Hdup]%filter_In & <-).
    repeat split. exists element. by rewrite <- isDuplicate_eligible.
  - intros (-> & -> & element & Hin & Heligible & <-).
    repeat split. exists element. split; [ | done].
    apply filter_In. by rewrite isDuplicate_eligible.
Qed.

(** X12: of the records that the pages return, the Collected Set keeps,
    and the loop visits, exactly those that are the last one returned
    for their run number. *)
Theorem X12_last_record_of_a_run_number_is_visited (runs : list Run.t) (element : Run.t) :
  In element (visited (setAll runs TreeMap.empty))
  ↔ last (List.filter (λ e, Run.run_number e =? Run.run_number element) runs)
    = Some element.
Proof.
  rewrite visited_get.
  - rewrite setAll_get. by destruct (last _).
  - apply setAll_wf. constructor.
  - apply setAll_keyed. constructor.
Qed.

Lemma last_filter_is_Some {A : Type} (f : A → bool) (l : list A) :
  is_Some (last (List.filter f l)) ↔ ∃ x : A, In x l ∧ f x = true.
Proof.
  rewrite last_is_Some. split.
  - destruct (List.filter f l) as [ | x xs] eqn:Hfilter; [done | ]. intros _.
    exists x. apply filter_In. rewrite Hfilter. by left.
  - intros (x & Hin) Hnil. apply filter_In in Hin. by rewrite Hnil in Hin.
Qed.

(** X13: the number that [cancelDuplicates] logs as found, the size of
    the Collected Set, is the number of distinct run numbers among the
    records of the pages, not the number of records. *)
Theorem X13_size_counts_distinct_run_numbers (runs : list Run.t) :
  TreeMap.size (setAll runs TreeMap.empty)
  = length (remove_dups (map Run.run_number runs)).
Proof.
  unfold TreeMap.size.
  rewrite <- (length_map fst (setAll runs TreeMap.empty)). fold (TreeMap.keys (setAll runs TreeMap.empty)).
  apply Permutation_length, NoDup_Permutation.
  - apply wf_keys_NoDup, setAll_wf. constructor.
  - apply NoDup_remove_dups.
  - intros k. rewrite elem_of_remove_dups, !list_elem_of_In, TreeMap_keys_get, setAll_get.
    cbn [TreeMap.get TreeMap.empty].
    transitivity (is_Some (last (List.filter (λ e, Run.run_number e =? k) runs))).
    { destruct (last _); [done | ]. split; by intros [? ?]. }
    rewrite last_filter_is_Some, in_map_iff. split.
    + intros (e & Hin & Hk%Z.eqb_eq). by exists e.
    + intros (e & Hk & Hin). exists e. by rewrite Z.eqb_eq.
Qed.

(** *** Decimal strings of one length *)

Lemma decimalValue_cons (d : Decimal.uint) :
  match d with
  | Decimal.Nil => True
  | Decimal.D0 l => decimalValue d = (decimalValue l + 0 * 10 ^ decimalSize l)%N
  | Decimal.D1 l => decimalValue d = (decimalValue l + 1 * 10 ^ decimalSize l)%N
  | Decimal.D2 l => decimalValue d = (decimalValue l + 2 * 10 ^ decimalSize l)%N
  | Decimal.D3 l => decimalValue d = (decimalValue l + 3 * 10 ^ decimalSize l)%N
  | Decimal.D4 l => decimalValue d = (decimalValue l + 4 * 10 ^ decimalSize l)%N
  | Decimal.D5 l => decimalValue d = (decimalValue l + 5 * 10 ^ decimalSize l)%N
  | Decimal.D6 l => decimalValue d = (decimalValue l + 6 * 10 ^ decimalSize l)%N
  | Decimal.D7 l => decimalValue d = (decimalValue l + 7 * 10 ^ decimalSize l)%N
  | Decimal.D8 l => decimalValue d = (decimalValue l + 8 * 10 ^ decimalSize l)%N
  | Decimal.D9 l => decimalValue d = (decimalValue l + 9 * 10 ^ decimalSize l)%N
  end.
Proof.
  destruct d; [exact I | ..]; unfold decimalValue, decimalSize, Decimal.rev;
    cbn [Decimal.revapp]; rewrite DecimalPos.Unsigned.of_lu_revapp; reflexivity.
Qed.

Lemma decimalSize_cons (d : Decimal.uint) :
  match d with
  | Decimal.Nil => decimalSize d = 0%N
  | Decimal.D0 l | Decimal.D1 l | Decimal.D2 l | Decimal.D3 l | Decimal.D4 l
  | Decimal.D5 l | Decimal.D6 l | Decimal.D7 l | Decimal.D8 l | Decimal.D9 l =>
      decimalSize d = N.succ (decimalSize l)
  end.
Proof. by destruct d. Qed.

Lemma decimalValue_bound (d : Decimal.uint) : (decimalValue d < 10 ^ decimalSize d)%N.
Proof.
  induction d as [ | l IH | l IH | l IH | l IH | l IH | l IH | l IH | l IH | l IH | l IH];
    [reflexivity | ..];
    match goal with
    | |- (decimalValue ?d < _)%N =>
        pose proof (decimalValue_cons d) as E; pose proof (decimalSize_cons d) as S;
        cbn beta iota in E, S
    end;
    rewrite E, S, N.pow_succ_r'; lia.
Qed.

Lemma decimalSize_of_length (d1 d2 : Decimal.uint) :
  String.length (NilEmpty.string_of_uint d1) = String.length (NilEmpty.string_of_uint d2) →
  decimalSize d1 = decimalSize d2.
Proof.
  revert d2.
  induction d1 as [ | l IH | l IH | l IH | l IH | l IH | l IH | l IH | l IH | l IH | l IH];
    intros d2; destruct d2 as [ | l2 | l2 | l2 | l2 | l2 | l2 | l2 | l2 | l2 | l2];
    cbn [NilEmpty.string_of_uint String.length];
    intros H; try discriminate; try reflexivity;
    match goal with
    | |- decimalSize ?a = decimalSize ?b =>
        pose proof (decimalSize_cons a) as Sa; pose proof (decimalSize_cons b) as Sb;
        cbn beta iota in Sa, Sb; rewrite Sa, Sb
    end;
    f_equal; apply IH; congruence.
Qed.

(** On digit sequences of one length, the order of the strings is the
    order of the numbers. *)
Lemma compare_decimal (d1 d2 : Decimal.uint) :
  decimalSize d1 = decimalSize d2 →
  String.compare (NilEmpty.string_of_uint d1) (NilEmpty.string_of_uint d2)
  = N.compare (decimalValue d1) (decimalValue d2).
Proof.
  revert d2.
  induction d1 as [ | l IH | l IH | l IH | l IH | l IH | l IH | l IH | l IH | l IH | l IH];
    intros d2; destruct d2 as [ | l2 | l2 | l2 | l2 | l2 | l2 | l2 | l2 | l2 | l2];
    intros Hsize;
    match type of Hsize with
    | decimalSize ?a = decimalSize ?b =>
        pose proof (decimalSize_cons a) as Sa; pose proof (decimalSize_cons b) as Sb;
        pose proof (decimalValue_cons a) as Ea; pose proof (decimalValue_cons b) as Eb;
        cbn beta iota in Sa, Sb, Ea, Eb
    end;
    try (exfalso; lia); try reflexivity;
    rewrite Sa, Sb in Hsize; apply N.succ_inj in Hsize;
    specialize (IH l2 Hsize);
    pose proof (decimalValue_bound l) as B1; pose proof (decimalValue_bound l2) as B2;
    rewrite Ea, Eb; rewrite Hsize in *;
    cbn [NilEmpty.string_of_uint String.compare];
    match goal with
    | |- match Ascii.compare ?c1 ?c2 with _ => _ end = _ =>
        let r := eval vm_compute in (Ascii.compare c1 c2) in
        change (Ascii.compare c1 c2) with r; cbv iota
    end;
    try rewrite IH;
    symmetry;
    first
      [ apply N.compare_lt_iff; lia
      | apply N.compare_gt_iff; lia
      | destruct (N.compare_spec (decimalValue l) (decimalValue l2));
        [apply N.compare_eq_iff | apply N.compare_lt_iff | apply N.compare_gt_iff]; lia ].
Qed.

(** On two identifiers with the same number of digits, [>=] on their
    strings is [>=] on the numbers. *)
Lemma ge_showN (a b : N) :
  String.length (Js.showN a) = String.length (Js.showN b) →
  Js.ge (Js.showN a) (Js.showN b) = (b <=? a)%N.
Proof.
  intros Hlen. unfold Js.ge, Js.showN in *. unfold String.ltb, N.leb.
  rewrite (compare_decimal _ _ (decimalSize_of_length _ _ Hlen)).
  unfold decimalValue. rewrite <- !DecimalPos.Unsigned.of_uint_alt.
  change (Pos.of_uint (N.to_uint a)) with (N.of_uint (N.to_uint a)).
  change (Pos.of_uint (N.to_uint b)) with (N.of_uint (N.to_uint b)).
  rewrite !DecimalN.Unsigned.of_to.
  rewrite (N.compare_antisym a b). destruct (a ?= b)%N; reflexivity.
Qed.

(** X14: when the identifier of a record has as many decimal digits as
    the current run identifier, the first skip rule is the numeric one:
    the record is skipped as larger exactly when its identifier is not
    below the current one. *)
Theorem X14_first_rule_is_numeric_on_equal_length (self : N) (element : Run.t) :
  String.length (Js.showN (Run.id element)) = String.length (Js.showN self) →
  skipReason (Js.showN self) element = Some SkipLarger ↔ (self <= Run.id element)%N.
Proof.
  intros Hlen. unfold skipReason. rewrite (ge_showN _ _ Hlen).
  destruct (N.leb_spec self (Run.id element)) as [Hle | Hlt].
  - done.
  - split; [ | lia].
    destruct (String.eqb _ _); [discriminate | ].
    destruct (negb _); discriminate.
Qed.

Lemma filter_nil_of_no_match {A : Type} (f : A → bool) (l : list A) :
  (∀ x : A, In x l → f x = false) → List.filter f l = [].
Proof.
  induction l as [ | x l IH]; [done | ]. intros Hall. cbn [List.filter].
  rewrite (Hall x (or_introl eq_refl)). apply IH. intros y Hy. apply Hall. by right.
Qed.

(** When no run number comes twice, the record kept for a run number is
    the record that carries it. *)
Lemma last_filter_unique (runs : list Run.t) (k : Z) (element : Run.t) :
  NoDup (map Run.run_number runs) →
  last (List.filter (λ e, Run.run_number e =? k) runs) = Some element
  ↔ In element runs ∧ Run.run_number element = k.
Proof.
  induction runs as [ | x runs IH]; cbn [map List.filter In].
  - intros _. split; [done | by intros [[] _]].
  - intros [Hx Hruns]%NoDup_cons. specialize (IH Hruns).
    destruct (Z.eqb_spec (Run.run_number x) k) as [Hk | Hk].
    + rewrite filter_nil_of_no_match.
      2:{ intros y Hy. apply Z.eqb_neq. intros Hyk. apply Hx.
          apply list_elem_of_In, in_map_iff. exists y. split; [congruence | done]. }
      cbn [last]. split.
      * intros [= ->]. split; [by left | done].
      * intros [[-> | Hin] Hek]; [done | ].
        exfalso. apply Hx. apply list_elem_of_In, in_map_iff. exists element. split; [congruence | done].
    + rewrite IH. split.
      * intros [Hin Hek]. split; [by right | done].
      * intros [[-> | Hin] Hek]; [done | by split].
Qed.

(** X15: as long as no run number is returned twice, the Collected Set
    does not depend on the order in which the records arrive: the pages
    of a status, and the two statuses, can come in any order. *)
Theorem X15_collected_set_is_independent_of_arrival_order (runs runs' : list Run.t) :
  runs ≡ₚ runs' →
  NoDup (map Run.run_number runs) →
  setAll runs' TreeMap.empty = setAll runs TreeMap.empty.
Proof.
  intros Hperm Hnodup.
  assert (Hnodup' : NoDup (map Run.run_number runs')).
  { eapply NoDup_Permutation_proper; [ | exact Hnodup]. symmetry. by apply Permutation_map. }
  apply TreeMap_ext; [apply setAll_wf; constructor | apply setAll_wf; constructor | ].
  intros k. rewrite !setAll_get. cbn [TreeMap.get TreeMap.empty].
  assert (Hsame : ∀ element : Run.t,
             last (List.filter (λ e, Run.run_number e =? k) runs') = Some element
             ↔ last (List.filter (λ e, Run.run_number e =? k) runs) = Some element).
  { intros element. rewrite (last_filter_unique runs' k element Hnodup'),
      (last_filter_unique runs k element Hnodup).
    split; intros [Hin Hk]; (split; [ | done]).
    - eapply Permutation_in; [symmetry; exact Hperm | done].
    - eapply Permutation_in; [exact Hperm | done]. }
  destruct (last (List.filter _ runs')) as [e' | ] eqn:H'.
  - symmetry. destruct (Hsame e') as [-> _]; done.
  - destruct (last (List.filter _ runs)) as [e | ] eqn:H; [ | done].
    destruct (Hsame e) as [_ Hback]. by specialize (Hback eq_refl).
Qed.

(** ** The further properties at concrete invocations *)

Lemma X2_on_incomplete_environments :
  let run := run Sample.getInput Sample.parseInt Sample.GitHub Sample.getWorkflowRun
                 Sample.listWorkflowRuns Sample.cancelWorkflowRun in
  let env := Sample.env "102" "push" "refs/heads/main" "main" in
  let pr := Sample.env "102" "pull_request" "refs/pull/7/merge" "main" in
  run (delete "GITHUB_RUN_ID" env) []
  = failedEarly "token" "GITHUB_RUN_ID was not defined." []
  ∧ run (delete "GITHUB_REPOSITORY" env) []
    = failedEarly "token" "GITHUB_REPOSITORY was not defined." []
  ∧ run (delete "GITHUB_EVENT_NAME" env) []
    = failedEarly "token" "GITHUB_EVENT_NAME was not defined." []
  ∧ run (delete "GITHUB_HEAD_REF" pr) []
    = failedEarly "token" "GITHUB_HEAD_REF was not defined." []
  ∧ run (delete "GITHUB_REF" env) []
    = failedEarly "token" "GITHUB_REF was not defined." [].
Proof.
  cbv zeta. split; [ | split; [ | split; [ | split]]].
  - apply (X2_first_undefined_variable_is_reported
             Sample.getInput Sample.parseInt Sample.GitHub Sample.getWorkflowRun
             Sample.listWorkflowRuns Sample.cancelWorkflowRun "102" "octo/demo" "push");
      vm_compute; reflexivity.
  - apply (X2_first_undefined_variable_is_reported
             Sample.getInput Sample.parseInt Sample.GitHub Sample.getWorkflowRun
             Sample.listWorkflowRuns Sample.cancelWorkflowRun "102" "octo/demo" "push");
      vm_compute; reflexivity.
  - apply (X2_first_undefined_variable_is_reported
             Sample.getInput Sample.parseInt Sample.GitHub Sample.getWorkflowRun
             Sample.listWorkflowRuns Sample.cancelWorkflowRun "102" "octo/demo" "push");
      vm_compute; reflexivity.
  - apply (X2_first_undefined_variable_is_reported
             Sample.getInput Sample.parseInt Sample.GitHub Sample.getWorkflowRun
             Sample.listWorkflowRuns Sample.cancelWorkflowRun "102" "octo/demo" "pull_request");
      vm_compute; reflexivity.
  - apply (X2_first_undefined_variable_is_reported
             Sample.getInput Sample.parseInt Sample.GitHub Sample.getWorkflowRun
             Sample.listWorkflowRuns Sample.cancelWorkflowRun "102" "octo/demo" "push");
      vm_compute; reflexivity.
Defined.

Lemma X3_on_a_pull_ref :
  run Sample.getInput Sample.parseInt Sample.GitHub Sample.getWorkflowRun
      Sample.listWorkflowRuns Sample.cancelWorkflowRun
      (Sample.env "102" "push" "refs/pull/7/merge" "") []
  = failedEarly "token" "refs/pull/7/merge was not an expected branch ref (refs/heads/)." [].
Proof.
  apply (X3_push_of_unexpected_ref_fails
           Sample.getInput Sample.parseInt Sample.GitHub Sample.getWorkflowRun
           Sample.listWorkflowRuns Sample.cancelWorkflowRun
           "102" "octo/demo" "refs/pull/7/merge");
    vm_compute; reflexivity.
Defined.

Lemma X4_pull_request_ignores_GITHUB_REF :
  let env := Sample.env "102" "pull_request" "refs/pull/7/merge" "main" in
  run Sample.getInput Sample.parseInt Sample.GitHub Sample.getWorkflowRun
      Sample.listWorkflowRuns Sample.cancelWorkflowRun
      (<["GITHUB_REF" := "refs/tags/v9"]> env) []
  = run Sample.getInput Sample.parseInt Sample.GitHub Sample.getWorkflowRun
        Sample.listWorkflowRuns Sample.cancelWorkflowRun
        env [].
Proof.
  cbv zeta.
  apply (X4_run_reads_four_variables
           Sample.getInput Sample.parseInt Sample.GitHub Sample.getWorkflowRun
           Sample.listWorkflowRuns Sample.cancelWorkflowRun); try (vm_compute; reflexivity).
  intros eventName HeventName. vm_compute in HeventName.
  injection HeventName as <-. vm_compute. reflexivity.
Defined.

Lemma X5_on_a_push_to_main :
  let env := Sample.env "102" "push" "refs/heads/main" "" in
  let call :=
    floating (cancelDuplicates Sample.parseInt Sample.GitHub Sample.getWorkflowRun
                Sample.listWorkflowRuns Sample.cancelWorkflowRun
                env "token" "102" "octo" (Some "demo") "main") [] in
  run Sample.getInput Sample.parseInt Sample.GitHub Sample.getWorkflowRun
      Sample.listWorkflowRuns Sample.cancelWorkflowRun
      env []
  = {| trace := Info "token"
                :: Info "Branch is main, repo is demo, and owner is octo, and id is 102"
                :: trace call;
       completion := Normal tt; world := world call |}.
Proof.
  cbv zeta.
  apply (X5_push_scopes_to_owner_repo_branch
           Sample.getInput Sample.parseInt Sample.GitHub Sample.getWorkflowRun
           Sample.listWorkflowRuns Sample.cancelWorkflowRun
           "102" "octo" "demo" "main");
    vm_compute; reflexivity.
Defined.

Lemma X6_on_workflow_42 :
  ∃ rest : list Event,
    trace (cancelDuplicates Sample.parseInt Sample.GitHub Sample.getWorkflowRun
             Sample.listWorkflowRuns Sample.cancelWorkflowRun
             (Sample.env "102" "push" "refs/heads/main" "")
             "token" "102" "octo" (Some "demo") "main" [])
    = GetWorkflowRun "octo" (Some "demo") (Sample.parseInt "102")
      :: Info "Workflow ID is: 42"
      :: ListWorkflowRuns (createRunsQuery "octo" (Some "demo") "42" "queued" "main")
      :: rest.
Proof.
  apply (X6_workflow_is_last_segment_of_url
           Sample.parseInt Sample.GitHub Sample.getWorkflowRun
           Sample.listWorkflowRuns Sample.cancelWorkflowRun
           (Sample.env "102" "push" "refs/heads/main" "")
           "token" "102" "octo" (Some "demo") "main"
           "https://api.github.com/repos/octo/demo/actions/workflows" "42" Sample.octokit).
  - reflexivity.
  - reflexivity.
  - reflexivity.
  - discriminate.
Defined.

Lemma X7_on_failed_lookups :
  let env := Sample.env "102" "push" "refs/heads/main" "" in
  cancelDuplicates Sample.parseInt Sample.GitHub Sample.getWorkflowRun
    Sample.listWorkflowRuns Sample.cancelWorkflowRun
    env "" "102" "octo" (Some "demo") "main" []
  = {| trace := [];
       completion := Throw (JsError.Error "Parameter token or opts.auth is required");
       world := [] |}
  ∧ cancelDuplicates Sample.parseInt Sample.GitHub Sample.getWorkflowRunNotFound
      Sample.listWorkflowRuns Sample.cancelWorkflowRun
      env "token" "102" "octo" (Some "demo") "main" []
    = {| trace := [GetWorkflowRun "octo" (Some "demo") (Sample.parseInt "102")];
         completion := Throw (JsError.mk (Some 404) "Not Found"); world := [] |}
  ∧ cancelDuplicates Sample.parseInt Sample.GitHub Sample.getWorkflowRunNoWorkflow
      Sample.listWorkflowRuns Sample.cancelWorkflowRun
      env "token" "102" "octo" (Some "demo") "main" []
    = {| trace := [GetWorkflowRun "octo" (Some "demo") (Sample.parseInt "102")];
         completion := Throw (JsError.Error "Could not resolve workflow"); world := [] |}.
Proof.
  cbv zeta. split; [ | split].
  - apply (proj1 (X7_unresolved_workflow_stops_after_the_lookup
             Sample.parseInt Sample.GitHub Sample.getWorkflowRun
             Sample.listWorkflowRuns Sample.cancelWorkflowRun
             (Sample.env "102" "push" "refs/heads/main" "")
             "" "102" "octo" (Some "demo") "main" [])).
    reflexivity.
  - apply (proj1 (proj2 (X7_unresolved_workflow_stops_after_the_lookup
             Sample.parseInt Sample.GitHub Sample.getWorkflowRunNotFound
             Sample.listWorkflowRuns Sample.cancelWorkflowRun
             (Sample.env "102" "push" "refs/heads/main" "")
             "token" "102" "octo" (Some "demo") "main" [])) Sample.octokit);
      reflexivity.
  - apply (proj2 (proj2 (X7_unresolved_workflow_stops_after_the_lookup
             Sample.parseInt Sample.GitHub Sample.getWorkflowRunNoWorkflow
             Sample.listWorkflowRuns Sample.cancelWorkflowRun
             (Sample.env "102" "push" "refs/heads/main" "")
             "token" "102" "octo" (Some "demo") "main" [])) Sample.octokit
             "https://api.github.com/repos/octo/demo/actions/workflows/").
    + reflexivity.
    + reflexivity.
    + right. exists "https://api.github.com/repos/octo/demo/actions/workflows". reflexivity.
Defined.

Lemma X8_on_broken_listings :
  let env := Sample.env "102" "push" "refs/heads/main" "" in
  cancelDuplicates Sample.parseInt Sample.GitHub Sample.getWorkflowRun
    Sample.listWorkflowRunsBroken Sample.cancelWorkflowRun
    env "token" "102" "octo" (Some "demo") "main" []
  = {| trace := [GetWorkflowRun "octo" (Some "demo") (Sample.parseInt "102");
                 Info "Workflow ID is: 42";
                 ListWorkflowRuns (createRunsQuery "octo" (Some "demo") "42" "queued" "main")];
       completion := Throw (JsError.mk (Some 502) "Bad Gateway"); world := [] |}
  ∧ cancelDuplicates Sample.parseInt Sample.GitHub Sample.getWorkflowRun
      Sample.listWorkflowRunsBrokenLater Sample.cancelWorkflowRun
      env "token" "102" "octo" (Some "demo") "main" []
    = {| trace := [GetWorkflowRun "octo" (Some "demo") (Sample.parseInt "102");
                   Info "Workflow ID is: 42";
                   ListWorkflowRuns (createRunsQuery "octo" (Some "demo") "42" "queued" "main");
                   ListWorkflowRuns
                     (createRunsQuery "octo" (Some "demo") "42" "in_progress" "main")];
         completion := Throw (JsError.mk (Some 502) "Bad Gateway"); world := [] |}.
Proof.
  cbv zeta. split.
  - apply (proj1 (X8_listing_failure_stops_the_collector
             Sample.parseInt Sample.GitHub Sample.getWorkflowRun
             Sample.listWorkflowRunsBroken Sample.cancelWorkflowRun
             (Sample.env "102" "push" "refs/heads/main" "")
             "token" "102" "octo" (Some "demo") "main" Sample.url Sample.octokit []
             eq_refl eq_refl ltac:(discriminate))).
    reflexivity.
  - apply (proj2 (X8_listing_failure_stops_the_collector
             Sample.parseInt Sample.GitHub Sample.getWorkflowRun
             Sample.listWorkflowRunsBrokenLater Sample.cancelWorkflowRun
             (Sample.env "102" "push" "refs/heads/main" "")
             "token" "102" "octo" (Some "demo") "main" Sample.url Sample.octokit []
             eq_refl eq_refl ltac:(discriminate))
             (setAll [Sample.run10] TreeMap.empty));
      reflexivity.
Defined.

Lemma X9_on_scenario_A :
  let sorted := setAll [Sample.run10; Sample.run11] TreeMap.empty in
  cancelCalls
    (trace (cancelDuplicates Sample.parseInt Sample.GitHub Sample.getWorkflowRun
              Sample.listWorkflowRuns Sample.cancelWorkflowRun
              (Sample.env "102" "push" "refs/heads/main" "")
              "token" "102" "octo" (Some "demo") "main" []))
  = map Run.id (duplicates sorted "102").
Proof.
  apply (X9_cancelDuplicates_in_order
           Sample.parseInt Sample.GitHub Sample.getWorkflowRun
           Sample.listWorkflowRuns Sample.cancelWorkflowRun
           (Sample.env "102" "push" "refs/heads/main" "")
           "token" "102" "octo" (Some "demo") "main" Sample.url
           (setAll [Sample.run10; Sample.run11] TreeMap.empty) Sample.octokit).
  - reflexivity.
  - reflexivity.
  - discriminate.
  - reflexivity.
Defined.

Lemma X14_on_run_100_and_102 :
  skipReason (Js.showN 102) Sample.run10 = Some SkipLarger ↔ (102 <= 100)%N.
Proof.
  apply (X14_first_rule_is_numeric_on_equal_length 102 Sample.run10). reflexivity.
Defined.

Lemma X15_on_scenario_A :
  setAll [Sample.run11; Sample.run10] TreeMap.empty
  = setAll [Sample.run10; Sample.run11] TreeMap.empty.
Proof.
  apply X15_collected_set_is_independent_of_arrival_order.
  - apply perm_swap.
  - apply (bool_decide_unpack _). vm_compute. exact I.
Defined.

Lemma X16_on_a_pull_request :
  let env := Sample.env "102" "pull_request" "refs/pull/7/merge" "feature/login" in
  let call :=
    floating (cancelDuplicates Sample.parseInt Sample.GitHub Sample.getWorkflowRun
                Sample.listWorkflowRuns Sample.cancelWorkflowRun
                env "token" "102" "octo" (Some "demo") "feature/login") [] in
  run Sample.getInput Sample.parseInt Sample.GitHub Sample.getWorkflowRun
      Sample.listWorkflowRuns Sample.cancelWorkflowRun
      env []
  = {| trace := Info "token"
                :: Info "Branch is feature/login, repo is demo, and owner is octo, and id is 102"
                :: trace call;
       completion := Normal tt; world := world call |}.
Proof.
  cbv zeta.
  apply (X16_pull_request_uses_the_head_ref
           Sample.getInput Sample.parseInt Sample.GitHub Sample.getWorkflowRun
           Sample.listWorkflowRuns Sample.cancelWorkflowRun
           "102" "octo" "demo" "feature/login");
    vm_compute; reflexivity.
Defined.
